(** * Structural mechanics engine of the engineering copilot

    Shallow embedding of [src/copilot/structural.py] and
    [src/copilot/materials.py], and the properties their specification
    states about beam analysis, Euler column buckling and material
    selection.

    Numeric model.  The engine of [structural.py] is embedded twice.

    [Binary64] is the program as CPython runs it on [float] arguments: the
    values are those of IEEE 754 binary64, with rounding, overflow,
    underflow, signed zeros, infinities and NaN; [x / y] raises
    [ZeroDivisionError] when [y] compares equal to zero; [x ** n] follows
    [float_pow], raises [OverflowError], and hands an ordinary base to the
    C library's [pow], which is a parameter of the model.  What every call
    of an operation does (which record it returns and when, what a zero
    moment leads to, what the safety threshold means, what an unknown end
    condition does) is proved there, for all arguments and all C
    libraries.

    The modules [BeamAnalyzer] and [ColumnAnalyzer] outside [Binary64]
    read the same source over the real numbers: a [float] stands for the
    real number it denotes and the arithmetic is exact, [x / y] raising
    [ZeroDivisionError] when [y] is zero and [math.sqrt x] raising
    [ValueError] when [x] is negative.  This reading carries the worked
    scenarios of the specification, whose figures are decimal values
    quoted to a few digits, and the identities between the fields of a
    result; rounding, overflow and the non-finite values are outside it.

    An exception carries the line of [structural.py] whose expression
    raised it, as the traceback does. *)

From Stdlib Require Import Reals Lra Lia String List Bool.
From Stdlib Require Floats.
Import ListNotations.
Local Open Scope R_scope.
Local Open Scope string_scope.

(** ** Python arithmetic and exceptions, over the reals *)

Module Py.

Inductive exn : Type :=
| ZeroDivisionError (lineno : nat)
| ValueError (lineno : nat).

Inductive result (A : Type) : Type :=
| Ok (a : A)
| Raise (e : exn).
Arguments Ok {A} a.
Arguments Raise {A} e.

Definition ret {A : Type} (a : A) : result A := Ok a.

Definition bind {A B : Type} (c : result A) (k : A -> result B) : result B :=
  match c with
  | Ok a => k a
  | Raise e => Raise e
  end.

Definition fmap {A B : Type} (f : A -> B) (c : result A) : result B :=
  bind c (fun a => ret (f a)).

(** [x / y] on floats. *)
Definition truediv (lineno : nat) (x y : R) : result R :=
  if Req_dec_T y 0 then Raise (ZeroDivisionError lineno) else Ok (x / y).

(** [math.sqrt(x)]. *)
Definition math_sqrt (lineno : nat) (x : R) : result R :=
  if Rlt_dec x 0 then Raise (ValueError lineno) else Ok (sqrt x).

(** [math.pi]. *)
Definition math_pi : R := PI.

(** [x < y], [x > y], [x >= y]. *)
Definition lt (x y : R) : bool := if Rlt_dec x y then true else false.
Definition gt (x y : R) : bool := if Rgt_dec x y then true else false.
Definition ge (x y : R) : bool := if Rge_dec x y then true else false.

(** [max(x, y)] and [min(x, y)]: the first argument is kept on a tie. *)
Definition max (x y : R) : R := if Rgt_dec y x then y else x.
Definition min (x y : R) : R := if Rlt_dec y x then y else x.

(** [abs(x)]. *)
Definition abs (x : R) : R := Rabs x.

(** A dict with string keys, in insertion order. *)
Definition dict (V : Type) : Type := list (string * V).

Fixpoint lookup {V : Type} (d : dict V) (k : string) : option V :=
  match d with
  | [] => None
  | (k', v) :: d' => if String.eqb k' k then Some v else lookup d' k
  end.

(** [d.get(k, default)]. *)
Definition get {V : Type} (d : dict V) (k : string) (default : V) : V :=
  match lookup d k with
  | Some v => v
  | None => default
  end.

(** [d[k] = v] on a copy of [d]. *)
Fixpoint set {V : Type} (d : dict V) (k : string) (v : V) : dict V :=
  match d with
  | [] => [(k, v)]
  | (k', v') :: d' =>
      if String.eqb k' k then (k', v) :: d' else (k', v') :: set d' k v
  end.

End Py.

Import Py.

Declare Scope py_scope.
Delimit Scope py_scope with py.
Notation "x <- c ;; k" := (bind c (fun x => k))
  (at level 61, c at next level, right associativity) : py_scope.
Notation "x /[ l ] y" := (truediv l x y)
  (at level 40, left associativity) : py_scope.
Local Open Scope py_scope.

(** ** Data model *)

(** [class Material]. *)
Record Material : Type := Build_Material {
  name : string;
  youngs_modulus : R;   (* GPa *)
  yield_strength : R;   (* MPa *)
  density : R;          (* kg/m3 *)
  cost_per_kg : R       (* USD/kg *)
}.

(** [Material.steel_a36()]. *)
Definition steel_a36 : Material :=
  {| name := "Steel A36";
     youngs_modulus := 200;
     yield_strength := 250;
     density := 7850;
     cost_per_kg := 1.50 |}.

(** [Material.aluminum_6061()]. *)
Definition aluminum_6061 : Material :=
  {| name := "Aluminum 6061-T6";
     youngs_modulus := 69;
     yield_strength := 276;
     density := 2700;
     cost_per_kg := 3.50 |}.

(** [class BeamAnalysisResult]. *)
Record BeamAnalysisResult : Type := Build_BeamAnalysisResult {
  max_deflection : R;   (* mm *)
  max_stress : R;       (* MPa *)
  max_moment : R;       (* N.m *)
  max_shear : R;        (* N *)
  safety_factor : R;
  weight : R;           (* kg *)
  cost : R              (* USD *)
}.

(** [BeamAnalysisResult.is_safe(self, min_safety_factor=1.5)]; the keyword
    argument is [None] when the caller leaves it out. *)
Definition is_safe (self : BeamAnalysisResult) (min_safety_factor : option R) : bool :=
  let min_safety_factor :=
    match min_safety_factor with Some t => t | None => 1.5 end in
  ge (safety_factor self) min_safety_factor.

(** ** Beam analyzer *)

Module BeamAnalyzer.

(** [BeamAnalyzer.__init__(self, material)]. *)
Record t : Type := init { material : Material }.

Definition simply_supported_point_load
    (self : t) (length load load_position width height : R)
    : result BeamAnalysisResult :=
  I <- (width * height ^ 3) /[117] 12 ;;
  let a := load_position in
  let b := length - load_position in
  max_moment <- (load * a * b) /[122] length ;;
  let E := youngs_modulus (material self) * 1e9 in
  max_deflection <-
    (if lt (abs (a - b)) 0.01
     then (load * length ^ 3) /[127] (48 * E * I)
     else (load * a ^ 2 * b ^ 2) /[130] (3 * E * I * length)) ;;
  let max_deflection_mm := max_deflection * 1000 in
  c <- height /[136] 2 ;;
  max_stress_pa <- (max_moment * c) /[137] I ;;
  max_stress_mpa <- max_stress_pa /[138] 1e6 ;;
  shear_left <- (load * b) /[141] length ;;
  shear_right <- (load * a) /[141] length ;;
  let max_shear := max shear_left shear_right in
  safety_factor <- yield_strength (material self) /[144] max_stress_mpa ;;
  let volume := length * width * height in
  let weight := volume * density (material self) in
  let cost := weight * cost_per_kg (material self) in
  ret {| max_deflection := max_deflection_mm;
         max_stress := max_stress_mpa;
         max_moment := max_moment;
         max_shear := max_shear;
         safety_factor := safety_factor;
         weight := weight;
         cost := cost |}.

Definition cantilever_beam
    (self : t) (length load width height : R)
    : result BeamAnalysisResult :=
  I <- (width * height ^ 3) /[180] 12 ;;
  let max_moment := load * length in
  let E := youngs_modulus (material self) * 1e9 in
  max_deflection <- (load * length ^ 3) /[187] (3 * E * I) ;;
  let max_deflection_mm := max_deflection * 1000 in
  c <- height /[191] 2 ;;
  max_stress_pa <- (max_moment * c) /[192] I ;;
  max_stress_mpa <- max_stress_pa /[193] 1e6 ;;
  let max_shear := load in
  safety_factor <- yield_strength (material self) /[199] max_stress_mpa ;;
  let volume := length * width * height in
  let weight := volume * density (material self) in
  let cost := weight * cost_per_kg (material self) in
  ret {| max_deflection := max_deflection_mm;
         max_stress := max_stress_mpa;
         max_moment := max_moment;
         max_shear := max_shear;
         safety_factor := safety_factor;
         weight := weight;
         cost := cost |}.

Definition distributed_load_beam
    (self : t) (length load_per_length width height : R)
    : result BeamAnalysisResult :=
  I <- (width * height ^ 3) /[233] 12 ;;
  let total_load := load_per_length * length in
  max_moment <- (load_per_length * length ^ 2) /[239] 8 ;;
  let E := youngs_modulus (material self) * 1e9 in
  max_deflection <- (5 * load_per_length * length ^ 4) /[243] (384 * E * I) ;;
  let max_deflection_mm := max_deflection * 1000 in
  c <- height /[247] 2 ;;
  max_stress_pa <- (max_moment * c) /[248] I ;;
  max_stress_mpa <- max_stress_pa /[249] 1e6 ;;
  max_shear <- total_load /[252] 2 ;;
  safety_factor <- yield_strength (material self) /[255] max_stress_mpa ;;
  let volume := length * width * height in
  let weight := volume * density (material self) in
  let cost := weight * cost_per_kg (material self) in
  ret {| max_deflection := max_deflection_mm;
         max_stress := max_stress_mpa;
         max_moment := max_moment;
         max_shear := max_shear;
         safety_factor := safety_factor;
         weight := weight;
         cost := cost |}.

End BeamAnalyzer.

(** ** Column analyzer *)

(** A value stored in the dict that [euler_buckling_load] returns. *)
Inductive pyval : Type :=
| PyFloat (x : R)
| PyStr (s : string)
| PyBool (b : bool).

Module ColumnAnalyzer.

(** [ColumnAnalyzer.__init__(self, material)]. *)
Record t : Type := init { material : Material }.

(** The local table [K_factors]. *)
Definition K_factors : dict R :=
  [ ("pinned-pinned", 1.0);
    ("fixed-free", 2.0);
    ("fixed-fixed", 0.5);
    ("fixed-pinned", 0.7) ].

Definition euler_buckling_load
    (self : t) (length width height : R) (end_condition : string)
    : result (dict pyval) :=
  let K := get K_factors end_condition 1.0 in
  I_horizontal <- (width * height ^ 3) /[303] 12 ;;
  I_vertical <- (height * width ^ 3) /[304] 12 ;;
  let I_min := min I_horizontal I_vertical in
  let L_e := K * length in
  let E := youngs_modulus (material self) * 1e9 in
  P_cr <- (math_pi ^ 2 * E * I_min) /[312] (L_e ^ 2) ;;
  let A := width * height in
  I_over_A <- I_min /[316] A ;;
  r <- math_sqrt 316 I_over_A ;;
  slenderness <- L_e /[317] r ;;
  P_cr_kn <- P_cr /[321] 1000 ;;
  ret [ ("critical_load_n", PyFloat P_cr);
        ("critical_load_kn", PyFloat P_cr_kn);
        ("slenderness_ratio", PyFloat slenderness);
        ("end_condition", PyStr end_condition);
        ("is_long_column", PyBool (gt slenderness 120)) ].

(** The keyword default of [end_condition]. *)
Definition euler_buckling_load_default (self : t) (length width height : R)
    : result (dict pyval) :=
  euler_buckling_load self length width height "pinned-pinned".

End ColumnAnalyzer.

(** ** Closed forms the specification names *)

Module Formula.

(** Second moment of area of a rectangle about the bending axis. *)
Definition second_moment (width height : R) : R := width * height ^ 3 / 12.

(** Elastic modulus in Pa from the material's GPa value. *)
Definition modulus_pa (m : Material) : R := youngs_modulus m * 1e9.

(** Bending stress [M c / I] with [c = height / 2], in MPa. *)
Definition bending_stress_mpa (M height I : R) : R := M * (height / 2) / I / 1e6.

(** Deflection in metres of a simply supported beam under a point load. *)
Definition point_load_deflection (P a L E I : R) : R :=
  let b := L - a in
  if Rlt_dec (Rabs (a - b)) 0.01
  then P * L ^ 3 / (48 * E * I)
  else P * a ^ 2 * b ^ 2 / (3 * E * I * L).

(** Weak-axis second moment of area of a rectangular column. *)
Definition I_min (width height : R) : R :=
  Rmin (width * height ^ 3 / 12) (height * width ^ 3 / 12).

(** [x] written to the precision of half a unit [u] of its last digit
    reads as [v]. *)
Definition approx (x v u : R) : Prop := Rabs (x - v) < u / 2.

End Formula.

(** ** The concrete scenarios of the specification *)

Module Scenario.

(** Steel A36 beam, simply supported, [L = 2 m], [P = 1000 N] at the centre,
    section 0.05 m by 0.1 m.  Every figure is the specification's, except
    the deflection, which is left open. *)
Definition steel_beam (deflection_mm : R) : Prop :=
  Formula.approx (Formula.second_moment 0.05 0.1) 4.1667e-6 0.0001e-6 /\
  exists r : BeamAnalysisResult,
    BeamAnalyzer.simply_supported_point_load
      (BeamAnalyzer.init steel_a36) 2 1000 1 0.05 0.1 = Ok r /\
    max_moment r = 500 /\
    Formula.approx (max_deflection r) deflection_mm 0.1 /\
    Formula.approx (max_stress r) 6.0 0.1 /\
    Formula.approx (safety_factor r) 41.7 0.1 /\
    Formula.approx (weight r) 78.5 0.1 /\
    Formula.approx (cost r) 117.75 0.01 /\
    is_safe r None = true.

(** Steel A36 column, [L = 3 m], square section of side 0.1 m,
    pinned-pinned.  Every figure is the specification's, except the
    critical load in kN, which is left open. *)
Definition steel_column (critical_load_kn : R) : Prop :=
  Formula.approx (Formula.I_min 0.1 0.1) 8.333e-6 0.001e-6 /\
  exists d : dict pyval,
    ColumnAnalyzer.euler_buckling_load
      (ColumnAnalyzer.init steel_a36) 3 0.1 0.1 "pinned-pinned" = Ok d /\
    (exists x, lookup d "critical_load_kn" = Some (PyFloat x) /\
               Formula.approx x critical_load_kn 0.1) /\
    (exists s, lookup d "slenderness_ratio" = Some (PyFloat s) /\
               Formula.approx s 103.9 0.1) /\
    lookup d "is_long_column" = Some (PyBool false).

End Scenario.

(** ** More Python builtins *)

Module PyBuiltins.

(** [x <= y]. *)
Definition le (x y : R) : bool := if Rle_dec x y then true else false.

(** [l.index(x)] at line [lineno]: the position of the first occurrence,
    [ValueError] when there is none. *)
Fixpoint index (lineno : nat) (l : list string) (x : string) : result nat :=
  match l with
  | [] => Raise (ValueError lineno)
  | y :: l' =>
      if String.eqb y x then Ok 0%nat
      else i <- index lineno l' x ;; ret (S i)
  end.

(** [[x for x in l if p(x)]] where evaluating [p] may raise. *)
Fixpoint comprehension {A : Type} (p : A -> result bool) (l : list A)
    : result (list A) :=
  match l with
  | [] => ret []
  | x :: l' =>
      keep <- p x ;;
      rest <- comprehension p l' ;;
      ret (if keep then x :: rest else rest)
  end.

(** The scan of [min(l, key=key)] once a first element [best] is held: a
    later element replaces it only when its key is strictly smaller. *)
Fixpoint min_scan {A : Type} (key : A -> R) (best : A) (l : list A) : A :=
  match l with
  | [] => best
  | x :: l' => min_scan key (if lt (key x) (key best) then x else best) l'
  end.

(** The scan of [max(l, key=key)]: a later element replaces the held one
    only when its key is strictly greater. *)
Fixpoint max_scan {A : Type} (key : A -> R) (best : A) (l : list A) : A :=
  match l with
  | [] => best
  | x :: l' => max_scan key (if gt (key x) (key best) then x else best) l'
  end.

(** [min(l, key=key)] at line [lineno]; [ValueError] on an empty list. *)
Definition min_key {A : Type} (lineno : nat) (key : A -> R) (l : list A) : result A :=
  match l with
  | [] => Raise (ValueError lineno)
  | x :: l' => Ok (min_scan key x l')
  end.

(** [max(l, key=key)] at line [lineno]; [ValueError] on an empty list. *)
Definition max_key {A : Type} (lineno : nat) (key : A -> R) (l : list A) : result A :=
  match l with
  | [] => Raise (ValueError lineno)
  | x :: l' => Ok (max_scan key x l')
  end.

(** [str.lower] on ASCII text: the letters A to Z go to a to z, every
    other character stays. *)
Definition lower_ascii_char (ch : Ascii.ascii) : Ascii.ascii :=
  let n := Ascii.nat_of_ascii ch in
  if andb (Nat.leb 65 n) (Nat.leb n 90) then Ascii.ascii_of_nat (n + 32) else ch.

Fixpoint lower_ascii (s : string) : string :=
  match s with
  | EmptyString => EmptyString
  | String ch s' => String (lower_ascii_char ch) (lower_ascii s')
  end.

End PyBuiltins.

(** ** Material database and selector ([materials.py]) *)

Module Materials.

(** [class MaterialCategory(Enum)]. *)
Inductive MaterialCategory : Type := METAL | POLYMER | CERAMIC | COMPOSITE.

(** [==] on two members of the enum. *)
Definition MaterialCategory_eqb (c c' : MaterialCategory) : bool :=
  match c, c' with
  | METAL, METAL | POLYMER, POLYMER | CERAMIC, CERAMIC | COMPOSITE, COMPOSITE => true
  | _, _ => false
  end.

(** [class MaterialProperties]. *)
Record MaterialProperties : Type := Build_MaterialProperties {
  name : string;
  category : MaterialCategory;
  grade : string;
  youngs_modulus : R;        (* GPa *)
  yield_strength : R;        (* MPa *)
  ultimate_strength : R;     (* MPa *)
  poissons_ratio : R;
  density : R;               (* kg/m3 *)
  hardness : option R;       (* HB *)
  thermal_conductivity : R;
  thermal_expansion : R;
  max_service_temp : R;      (* C *)
  melting_point : option R;  (* C *)
  cost_per_kg : R;           (* USD/kg *)
  availability : string;
  corrosion_resistance : string;
  machinability : string;
  weldability : string
}.

(** [MaterialProperties.__str__]. *)
Definition str (self : MaterialProperties) : string :=
  name self ++ " (" ++ grade self ++ ")".

(** The local list [resistance_levels] of [search]. *)
Definition resistance_levels : list string :=
  ["poor"; "moderate"; "good"; "excellent"].

Module MaterialDatabase.

(** The state of a [MaterialDatabase]: its list [self.materials]. *)
Record t : Type := Build_t { materials : list MaterialProperties }.

(** [MaterialDatabase._load_materials], from the empty list
    [__init__] starts with: three [extend]s and one [append]. *)
Definition load_materials (self : t) : t :=
  let self := {| materials := materials self ++
    [ {| name := "Steel A36"; category := METAL; grade := "ASTM A36";
         youngs_modulus := 200; yield_strength := 250; ultimate_strength := 400;
         poissons_ratio := 0.26; density := 7850; hardness := Some 119;
         thermal_conductivity := 51.9; thermal_expansion := 11.7;
         max_service_temp := 425; melting_point := Some 1510;
         cost_per_kg := 1.50; availability := "common";
         corrosion_resistance := "poor"; machinability := "good";
         weldability := "excellent" |};
      {| name := "Steel 4140"; category := METAL; grade := "AISI 4140";
         youngs_modulus := 205; yield_strength := 415; ultimate_strength := 655;
         poissons_ratio := 0.29; density := 7850; hardness := Some 197;
         thermal_conductivity := 42.6; thermal_expansion := 12.3;
         max_service_temp := 425; melting_point := Some 1416;
         cost_per_kg := 2.20; availability := "common";
         corrosion_resistance := "moderate"; machinability := "moderate";
         weldability := "good" |};
      {| name := "Stainless Steel 304"; category := METAL; grade := "AISI 304";
         youngs_modulus := 193; yield_strength := 215; ultimate_strength := 505;
         poissons_ratio := 0.29; density := 8000; hardness := Some 123;
         thermal_conductivity := 16.2; thermal_expansion := 17.3;
         max_service_temp := 870; melting_point := Some 1450;
         cost_per_kg := 4.50; availability := "common";
         corrosion_resistance := "excellent"; machinability := "moderate";
         weldability := "excellent" |} ] |} in
  let self := {| materials := materials self ++
    [ {| name := "Aluminum 6061-T6"; category := METAL; grade := "AA 6061-T6";
         youngs_modulus := 69; yield_strength := 276; ultimate_strength := 310;
         poissons_ratio := 0.33; density := 2700; hardness := Some 95;
         thermal_conductivity := 167; thermal_expansion := 23.6;
         max_service_temp := 200; melting_point := Some 582;
         cost_per_kg := 3.50; availability := "common";
         corrosion_resistance := "good"; machinability := "excellent";
         weldability := "good" |};
      {| name := "Aluminum 7075-T6"; category := METAL; grade := "AA 7075-T6";
         youngs_modulus := 71.7; yield_strength := 503; ultimate_strength := 572;
         poissons_ratio := 0.33; density := 2810; hardness := Some 150;
         thermal_conductivity := 130; thermal_expansion := 23.4;
         max_service_temp := 175; melting_point := Some 477;
         cost_per_kg := 5.00; availability := "common";
         corrosion_resistance := "moderate"; machinability := "good";
         weldability := "poor" |} ] |} in
  let self := {| materials := materials self ++
    [ {| name := "Titanium Ti-6Al-4V"; category := METAL; grade := "Grade 5";
         youngs_modulus := 113.8; yield_strength := 880; ultimate_strength := 950;
         poissons_ratio := 0.342; density := 4430; hardness := Some 334;
         thermal_conductivity := 6.7; thermal_expansion := 8.6;
         max_service_temp := 400; melting_point := Some 1660;
         cost_per_kg := 35.00; availability := "moderate";
         corrosion_resistance := "excellent"; machinability := "poor";
         weldability := "moderate" |} ] |} in
  {| materials := materials self ++
    [ {| name := "ABS Plastic"; category := POLYMER; grade := "Standard";
         youngs_modulus := 2.3; yield_strength := 40; ultimate_strength := 45;
         poissons_ratio := 0.35; density := 1050; hardness := None;
         thermal_conductivity := 0.25; thermal_expansion := 90;
         max_service_temp := 80; melting_point := None;
         cost_per_kg := 2.50; availability := "common";
         corrosion_resistance := "excellent"; machinability := "excellent";
         weldability := "poor" |};
      {| name := "Nylon 6/6"; category := POLYMER; grade := "PA66";
         youngs_modulus := 2.9; yield_strength := 75; ultimate_strength := 85;
         poissons_ratio := 0.39; density := 1140; hardness := None;
         thermal_conductivity := 0.25; thermal_expansion := 80;
         max_service_temp := 120; melting_point := None;
         cost_per_kg := 3.00; availability := "common";
         corrosion_resistance := "excellent"; machinability := "good";
         weldability := "poor" |} ] |}.

(** [MaterialDatabase.__init__]. *)
Definition init : t := load_materials {| materials := [] |}.

(** [MaterialDatabase.search]; an argument left out, or given as [None],
    is [None]. *)
Definition search (self : t)
    (min_strength max_cost min_temp : option R)
    (category : option MaterialCategory)
    (corrosion_resistance : option string)
    : result (list MaterialProperties) :=
  let results := materials self in
  let results :=
    match min_strength with
    | Some min_strength =>
        filter (fun m => ge (yield_strength m) min_strength) results
    | None => results
    end in
  let results :=
    match max_cost with
    | Some max_cost =>
        filter (fun m => PyBuiltins.le (cost_per_kg m) max_cost) results
    | None => results
    end in
  let results :=
    match min_temp with
    | Some min_temp =>
        filter (fun m => ge (max_service_temp m) min_temp) results
    | None => results
    end in
  let results :=
    match category with
    | Some category =>
        filter (fun m => MaterialCategory_eqb (Materials.category m) category) results
    | None => results
    end in
  match corrosion_resistance with
  | Some corrosion_resistance =>
      min_level <- PyBuiltins.index 273 resistance_levels corrosion_resistance ;;
      PyBuiltins.comprehension
        (fun m =>
           level <- PyBuiltins.index 276 resistance_levels (Materials.corrosion_resistance m) ;;
           ret (Nat.leb min_level level))
        results
  | None => ret results
  end.

Section Lower.

(** [str.lower], whose Unicode tables are outside this development: the
    database is modelled for any such function. *)
Variable lower : string -> string.

(** [MaterialDatabase.get_by_name]. *)
Fixpoint get_by_name_loop (l : list MaterialProperties) (name : string)
    : option MaterialProperties :=
  match l with
  | [] => None
  | material :: l' =>
      if String.eqb (lower (Materials.name material)) (lower name)
      then Some material
      else get_by_name_loop l' name
  end.

Definition get_by_name (self : t) (name : string) : option MaterialProperties :=
  get_by_name_loop (materials self) name.

End Lower.

End MaterialDatabase.

Module MaterialSelector.

(** The state of a [MaterialSelector]: its database [self.db]. *)
Record t : Type := Build_t { db : MaterialDatabase.t }.

(** [MaterialSelector.__init__]. *)
Definition init : t := {| db := MaterialDatabase.init |}.

(** [MaterialSelector.recommend]; [optimize_for] is "cost" when the caller
    leaves it out. *)
Definition recommend (self : t)
    (min_strength max_cost min_temp : option R)
    (corrosion_resistance : option string)
    (optimize_for : string)
    : result (option MaterialProperties) :=
  candidates <-
    MaterialDatabase.search (db self)
      min_strength max_cost min_temp None corrosion_resistance ;;
  match candidates with
  | [] => ret None
  | first :: _ =>
      if String.eqb optimize_for "cost" then
        m <- PyBuiltins.min_key 326 cost_per_kg candidates ;; ret (Some m)
      else if String.eqb optimize_for "weight" then
        m <- PyBuiltins.min_key 328 density candidates ;; ret (Some m)
      else if String.eqb optimize_for "strength" then
        m <- PyBuiltins.max_key 330 yield_strength candidates ;; ret (Some m)
      else
        ret (Some first)
  end.

Section Lower.

Variable lower : string -> string.

(** [MaterialSelector.compare]: the loop over [material_names], from the
    dict built so far. *)
Fixpoint compare_loop (self : t) (material_names : list string)
    (comparison : dict MaterialProperties) : dict MaterialProperties :=
  match material_names with
  | [] => comparison
  | name :: rest =>
      match MaterialDatabase.get_by_name lower (db self) name with
      | Some material => compare_loop self rest (set comparison name material)
      | None => compare_loop self rest comparison
      end
  end.

Definition compare (self : t) (material_names : list string)
    : dict MaterialProperties :=
  compare_loop self material_names [].

End Lower.

End MaterialSelector.

(** What [search] asks of a material, as one test. *)
Definition level (tag : string) : option nat :=
  match PyBuiltins.index 0 resistance_levels tag with
  | Ok i => Some i
  | Raise _ => None
  end.

Definition at_least (threshold : option R) (x : R) : bool :=
  match threshold with Some t => ge x t | None => true end.

Definition at_most (threshold : option R) (x : R) : bool :=
  match threshold with Some t => PyBuiltins.le x t | None => true end.

Definition in_category (c : option MaterialCategory) (m : MaterialProperties) : bool :=
  match c with Some c => MaterialCategory_eqb (category m) c | None => true end.

Definition resists (min_level : option nat) (m : MaterialProperties) : bool :=
  match min_level with
  | Some i =>
      match level (corrosion_resistance m) with
      | Some j => Nat.leb i j
      | None => false
      end
  | None => true
  end.

Definition meets (min_strength max_cost min_temp : option R)
    (c : option MaterialCategory) (min_level : option nat)
    (m : MaterialProperties) : bool :=
  at_least min_strength (yield_strength m) &&
  at_most max_cost (cost_per_kg m) &&
  at_least min_temp (max_service_temp m) &&
  in_category c m &&
  resists min_level m.

(** Every material of the database carries one of the four corrosion
    levels. *)
Definition well_formed (db : MaterialDatabase.t) : Prop :=
  Forall (fun m => level (corrosion_resistance m) <> None)
         (MaterialDatabase.materials db).

End Materials.

(** A decimal literal of a float denotes the nearest binary64 value, as in
    Python. *)
Set Warnings "-inexact-float".

(** ** The engine on binary64 *)

(** The beam and column operations as CPython runs them on [float]
    arguments.  A [float] is an IEEE 754 binary64 value; [*], [-], [abs],
    [math.sqrt] and the comparisons are the correctly rounded primitive
    operations; [x / y] raises [ZeroDivisionError] when [y] compares equal
    to zero, and divides otherwise; [x ** n] follows [float_pow] of
    CPython's [floatobject.c]: NaN, infinite, zero and unit bases are
    answered without the C library, every other base is handed to the
    library's [pow], and a result that is infinite or reported out of range
    raises [OverflowError].  No standard fixes the value the library's
    [pow] returns, so the library is a parameter of the model and every
    theorem below holds for all libraries. *)

Module Binary64.

Import Floats.
Local Open Scope float_scope.

Inductive exn : Type :=
| ZeroDivisionError (lineno : nat)
| OverflowError (lineno : nat)
| ValueError (lineno : nat).

Inductive result (A : Type) : Type :=
| Ok (a : A)
| Raise (e : exn).
Arguments Ok {A} a.
Arguments Raise {A} e.

Definition ret {A : Type} (a : A) : result A := Ok a.

Definition bind {A B : Type} (c : result A) (k : A -> result B) : result B :=
  match c with
  | Ok a => k a
  | Raise e => Raise e
  end.

Definition fmap {A B : Type} (f : A -> B) (c : result A) : result B :=
  bind c (fun a => ret (f a)).

(** What a call of the C library leaves in [errno]: nothing, [ERANGE], or
    another code ([EDOM] stands for all of them). *)
Inductive errno : Type :=
| ENONE
| ERANGE
| EDOM.

(** The C library behind [float.__pow__]: the value [pow(x, y)] returns and
    the [errno] it leaves.  [float_pow] consults it only for a finite
    [x > 0] other than [1.0]. *)
Class Libm : Type := { libm_pow : float -> float -> float * errno }.

(** [x / y] on floats. *)
Definition truediv (lineno : nat) (x y : float) : result float :=
  if y =? 0 then Raise (ZeroDivisionError lineno) else Ok (x / y).

(** [DOUBLE_IS_ODD_INTEGER] on the exponent [n]. *)
Definition is_odd (n : positive) : bool :=
  match n with
  | xO _ => false
  | _ => true
  end.

(** The int literal [n] converted to a float. *)
Definition float_of_int (n : positive) : float :=
  of_uint63 (Uint63.of_Z (Zpos n)).

(** [_Py_ADJUST_ERANGE1]: an infinite result is a range error also when
    the library did not report one, and a range error with a zero result
    is an underflow, which is not an error. *)
Definition adjust_erange (ix : float) (e : errno) : errno :=
  match e with
  | ENONE => if is_infinity ix then ERANGE else ENONE
  | ERANGE => if ix =? 0 then ENONE else ERANGE
  | EDOM => EDOM
  end.

(** [x ** n] for a float [x] and a positive int literal [n] ([float_pow]). *)
Definition pow {libm : Libm} (lineno : nat) (x : float) (n : positive) : result float :=
  let iw := float_of_int n in
  if is_nan x then Ok x
  else if is_infinity x then Ok (if is_odd n then x else abs x)
  else if x =? 0 then Ok (if is_odd n then x else 0)
  else
    let negate_result := (x <? 0) && is_odd n in
    let iv := if x <? 0 then - x else x in
    if iv =? 1 then Ok (if negate_result then -1 else 1)
    else
      let (ix, e) := libm_pow iv iw in
      let e := adjust_erange ix e in
      let ix := if negate_result then - ix else ix in
      match e with
      | ENONE => Ok ix
      | ERANGE => Raise (OverflowError lineno)
      | EDOM => Raise (ValueError lineno)
      end.

(** [math.sqrt(x)] ([math_1] of CPython's [mathmodule.c] on the C
    library's [sqrt], which is the correctly rounded operation): a NaN
    result from an argument that is not NaN, or an infinite result from a
    finite argument, is a domain error. *)
Definition math_sqrt (lineno : nat) (x : float) : result float :=
  let r := sqrt x in
  if is_nan r && negb (is_nan x) then Raise (ValueError lineno)
  else if is_infinity r && is_finite x then Raise (ValueError lineno)
  else Ok r.

(** [math.pi]. *)
Definition math_pi : float := 0x1.921fb54442d18p+1.

(** [x < y], [x > y], [x >= y]. *)
Definition lt (x y : float) : bool := x <? y.
Definition gt (x y : float) : bool := y <? x.
Definition ge (x y : float) : bool := y <=? x.

(** [max(x, y)] and [min(x, y)]: [y] replaces [x] only when [y > x],
    respectively [y < x]. *)
Definition max (x y : float) : float := if gt y x then y else x.
Definition min (x y : float) : float := if lt y x then y else x.

Declare Scope py64_scope.
Delimit Scope py64_scope with py64.
Notation "x <- c ;; k" := (bind c (fun x => k))
  (at level 61, c at next level, right associativity) : py64_scope.
Notation "x /[ l ] y" := (truediv l x y)
  (at level 40, left associativity) : py64_scope.
Notation "x ^[ l ] n" := (pow l x n)
  (at level 30, right associativity) : py64_scope.
Local Open Scope py64_scope.

(** [class Material]. *)
Record Material : Type := Build_Material {
  name : string;
  youngs_modulus : float;   (* GPa *)
  yield_strength : float;   (* MPa *)
  density : float;          (* kg/m3 *)
  cost_per_kg : float       (* USD/kg *)
}.

(** [Material.steel_a36()]; its int fields meet a float in every
    expression that uses them, and convert to it exactly. *)
Definition steel_a36 : Material :=
  {| name := "Steel A36";
     youngs_modulus := 200;
     yield_strength := 250;
     density := 7850;
     cost_per_kg := 1.50 |}.

(** [class BeamAnalysisResult]. *)
Record BeamAnalysisResult : Type := Build_BeamAnalysisResult {
  max_deflection : float;   (* mm *)
  max_stress : float;       (* MPa *)
  max_moment : float;       (* N.m *)
  max_shear : float;        (* N *)
  safety_factor : float;
  weight : float;           (* kg *)
  cost : float              (* USD *)
}.

(** [BeamAnalysisResult.is_safe(self, min_safety_factor=1.5)]; the keyword
    argument is [None] when the caller leaves it out. *)
Definition is_safe (self : BeamAnalysisResult) (min_safety_factor : option float) : bool :=
  let min_safety_factor :=
    match min_safety_factor with Some t => t | None => 1.5 end in
  ge (safety_factor self) min_safety_factor.

Module BeamAnalyzer.

(** [BeamAnalyzer.__init__(self, material)]. *)
Record t : Type := init { material : Material }.

Section Operations.

Context {libm : Libm}.

(** [BeamAnalyzer.simply_supported_point_load], lines 98-161. *)
Definition simply_supported_point_load
    (self : t) (length load load_position width height : float)
    : result BeamAnalysisResult :=
  height3 <- height ^[117] 3 ;;
  I <- (width * height3) /[117] 12 ;;
  let a := load_position in
  let b := length - load_position in
  max_moment <- (load * a * b) /[122] length ;;
  let E := youngs_modulus (material self) * 1e9 in
  max_deflection <-
    (if lt (abs (a - b)) 0.01
     then
       length3 <- length ^[127] 3 ;;
       (load * length3) /[127] (48 * E * I)
     else
       a2 <- a ^[130] 2 ;;
       b2 <- b ^[130] 2 ;;
       (load * a2 * b2) /[130] (3 * E * I * length)) ;;
  let max_deflection_mm := max_deflection * 1000 in
  c <- height /[136] 2 ;;
  max_stress_pa <- (max_moment * c) /[137] I ;;
  max_stress_mpa <- max_stress_pa /[138] 1e6 ;;
  shear_left <- (load * b) /[141] length ;;
  shear_right <- (load * a) /[141] length ;;
  let max_shear := max shear_left shear_right in
  safety_factor <- yield_strength (material self) /[144] max_stress_mpa ;;
  let volume := length * width * height in
  let weight := volume * density (material self) in
  let cost := weight * cost_per_kg (material self) in
  ret {| max_deflection := max_deflection_mm;
         max_stress := max_stress_mpa;
         max_moment := max_moment;
         max_shear := max_shear;
         safety_factor := safety_factor;
         weight := weight;
         cost := cost |}.

(** [BeamAnalyzer.cantilever_beam], lines 163-214. *)
Definition cantilever_beam
    (self : t) (length load width height : float)
    : result BeamAnalysisResult :=
  height3 <- height ^[180] 3 ;;
  I <- (width * height3) /[180] 12 ;;
  let max_moment := load * length in
  let E := youngs_modulus (material self) * 1e9 in
  length3 <- length ^[187] 3 ;;
  max_deflection <- (load * length3) /[187] (3 * E * I) ;;
  let max_deflection_mm := max_deflection * 1000 in
  c <- height /[191] 2 ;;
  max_stress_pa <- (max_moment * c) /[192] I ;;
  max_stress_mpa <- max_stress_pa /[193] 1e6 ;;
  let max_shear := load in
  safety_factor <- yield_strength (material self) /[199] max_stress_mpa ;;
  let volume := length * width * height in
  let weight := volume * density (material self) in
  let cost := weight * cost_per_kg (material self) in
  ret {| max_deflection := max_deflection_mm;
         max_stress := max_stress_mpa;
         max_moment := max_moment;
         max_shear := max_shear;
         safety_factor := safety_factor;
         weight := weight;
         cost := cost |}.

(** [BeamAnalyzer.distributed_load_beam], lines 216-270. *)
Definition distributed_load_beam
    (self : t) (length load_per_length width height : float)
    : result BeamAnalysisResult :=
  height3 <- height ^[233] 3 ;;
  I <- (width * height3) /[233] 12 ;;
  let total_load := load_per_length * length in
  length2 <- length ^[239] 2 ;;
  max_moment <- (load_per_length * length2) /[239] 8 ;;
  let E := youngs_modulus (material self) * 1e9 in
  length4 <- length ^[243] 4 ;;
  max_deflection <- (5 * load_per_length * length4) /[243] (384 * E * I) ;;
  let max_deflection_mm := max_deflection * 1000 in
  c <- height /[247] 2 ;;
  max_stress_pa <- (max_moment * c) /[248] I ;;
  max_stress_mpa <- max_stress_pa /[249] 1e6 ;;
  max_shear <- total_load /[252] 2 ;;
  safety_factor <- yield_strength (material self) /[255] max_stress_mpa ;;
  let volume := length * width * height in
  let weight := volume * density (material self) in
  let cost := weight * cost_per_kg (material self) in
  ret {| max_deflection := max_deflection_mm;
         max_stress := max_stress_mpa;
         max_moment := max_moment;
         max_shear := max_shear;
         safety_factor := safety_factor;
         weight := weight;
         cost := cost |}.

End Operations.

End BeamAnalyzer.

(** A value stored in the dict that [euler_buckling_load] returns. *)
Inductive pyval : Type :=
| PyFloat (x : float)
| PyStr (s : string)
| PyBool (b : bool).

Module ColumnAnalyzer.

(** [ColumnAnalyzer.__init__(self, material)]. *)
Record t : Type := init { material : Material }.

(** The local table [K_factors]. *)
Definition K_factors : dict float :=
  [ ("pinned-pinned", 1.0);
    ("fixed-free", 2.0);
    ("fixed-fixed", 0.5);
    ("fixed-pinned", 0.7) ].

Section Operations.

Context {libm : Libm}.

(** [ColumnAnalyzer.euler_buckling_load], lines 279-325. *)
Definition euler_buckling_load
    (self : t) (length width height : float) (end_condition : string)
    : result (dict pyval) :=
  let K := get K_factors end_condition 1.0 in
  height3 <- height ^[303] 3 ;;
  I_horizontal <- (width * height3) /[303] 12 ;;
  width3 <- width ^[304] 3 ;;
  I_vertical <- (height * width3) /[304] 12 ;;
  let I_min := min I_horizontal I_vertical in
  let L_e := K * length in
  let E := youngs_modulus (material self) * 1e9 in
  pi2 <- math_pi ^[312] 2 ;;
  L_e2 <- L_e ^[312] 2 ;;
  P_cr <- (pi2 * E * I_min) /[312] L_e2 ;;
  let A := width * height in
  I_over_A <- I_min /[316] A ;;
  r <- math_sqrt 316 I_over_A ;;
  slenderness <- L_e /[317] r ;;
  P_cr_kn <- P_cr /[321] 1000 ;;
  ret [ ("critical_load_n", PyFloat P_cr);
        ("critical_load_kn", PyFloat P_cr_kn);
        ("slenderness_ratio", PyFloat slenderness);
        ("end_condition", PyStr end_condition);
        ("is_long_column", PyBool (gt slenderness 120)) ].

End Operations.

End ColumnAnalyzer.

(** *** The formulas of the specification *)

(** What the specification says each operation computes, written once more
    from its words: the formulas are evaluated in binary64 in the order
    they are written, a power is the value [float_pow] returns, and a
    quotient is defined when its divisor does not compare equal to zero. *)

Module Formula.

(** Second moment of area [I = width * height^3 / 12], from the cube. *)
Definition second_moment (width height3 : float) : float := width * height3 / 12.

(** Elastic modulus in Pa from the material's GPa value. *)
Definition modulus_pa (m : Material) : float := youngs_modulus m * 1e9.

(** Bending stress [M c / I] with [c = height / 2], converted to MPa. *)
Definition bending_stress_mpa (M height I : float) : float := M * (height / 2) / I / 1e6.

(** The result record of an analysis that found moment [M], deflection [d]
    in mm, stress [s] in MPa and shear [V]: the safety factor is
    [yield_strength / s], weight and cost follow the volume. *)
Definition result_of (m : Material) (L w h M d s V : float) : BeamAnalysisResult :=
  {| max_deflection := d;
     max_stress := s;
     max_moment := M;
     max_shear := V;
     safety_factor := yield_strength m / s;
     weight := L * w * h * density m;
     cost := L * w * h * density m * cost_per_kg m |}.

(** [x] is a zero or NaN. *)
Definition zero_or_nan (x : float) : Prop := (x =? 0) = true \/ is_nan x = true.

(** Effective-length factor of a recognised end condition. *)
Inductive end_factor : string -> float -> Prop :=
| K_pinned_pinned : end_factor "pinned-pinned" 1.0
| K_fixed_free : end_factor "fixed-free" 2.0
| K_fixed_fixed : end_factor "fixed-fixed" 0.5
| K_fixed_pinned : end_factor "fixed-pinned" 0.7.

(** The four recognised tags. *)
Definition recognized (tag : string) : Prop := exists K, end_factor tag K.

Section Analyses.

Context {libm : Libm}.

(** Deflection in metres of a simply supported beam under a point load. *)
Definition point_load_deflection (P a L E I d : float) : Prop :=
  let b := L - a in
  if abs (a - b) <? 0.01
  then exists L3,
         pow 127 L 3 = Ok L3 /\
         (48 * E * I =? 0) = false /\
         d = P * L3 / (48 * E * I)
  else exists a2 b2,
         pow 130 a 2 = Ok a2 /\
         pow 130 b 2 = Ok b2 /\
         (3 * E * I * L =? 0) = false /\
         d = P * a2 * b2 / (3 * E * I * L).

(** Simply supported beam, point load [P] at [a]: moment [M], deflection
    [d] in mm, stress [s] in MPa and shear [V]. *)
Definition simply_supported_point_load
    (m : Material) (L P a w h : float) (M d s V : float) : Prop :=
  exists h3 d_m,
    pow 117 h 3 = Ok h3 /\
    let I := second_moment w h3 in
    let b := L - a in
    (L =? 0) = false /\
    point_load_deflection P a L (modulus_pa m) I d_m /\
    (I =? 0) = false /\
    M = P * a * b / L /\
    d = d_m * 1000 /\
    s = bending_stress_mpa M h I /\
    V = max (P * b / L) (P * a / L).

(** Cantilever, point load [P] at the free end. *)
Definition cantilever_beam
    (m : Material) (L P w h : float) (M d s V : float) : Prop :=
  exists h3 L3,
    pow 180 h 3 = Ok h3 /\
    pow 187 L 3 = Ok L3 /\
    let I := second_moment w h3 in
    let E := modulus_pa m in
    (3 * E * I =? 0) = false /\
    (I =? 0) = false /\
    M = P * L /\
    d = P * L3 / (3 * E * I) * 1000 /\
    s = bending_stress_mpa M h I /\
    V = P.

(** Simply supported beam, uniformly distributed load [q]. *)
Definition distributed_load_beam
    (m : Material) (L q w h : float) (M d s V : float) : Prop :=
  exists h3 L2 L4,
    pow 233 h 3 = Ok h3 /\
    pow 239 L 2 = Ok L2 /\
    pow 243 L 4 = Ok L4 /\
    let I := second_moment w h3 in
    let E := modulus_pa m in
    (384 * E * I =? 0) = false /\
    (I =? 0) = false /\
    M = q * L2 / 8 /\
    d = 5 * q * L4 / (384 * E * I) * 1000 /\
    s = bending_stress_mpa M h I /\
    V = q * L / 2.

(** Euler buckling with effective-length factor [K]: the returned dict. *)
Definition euler_buckling_load
    (m : Material) (L w h K : float) (tag : string) (d : dict pyval) : Prop :=
  exists h3 w3 pi2 L_e2 r,
    pow 303 h 3 = Ok h3 /\
    pow 304 w 3 = Ok w3 /\
    pow 312 math_pi 2 = Ok pi2 /\
    pow 312 (K * L) 2 = Ok L_e2 /\
    let I_min := min (second_moment w h3) (second_moment h w3) in
    let L_e := K * L in
    let P_cr := pi2 * modulus_pa m * I_min / L_e2 in
    let slenderness := L_e / r in
    (L_e2 =? 0) = false /\
    (w * h =? 0) = false /\
    math_sqrt 316 (I_min / (w * h)) = Ok r /\
    (r =? 0) = false /\
    d = [ ("critical_load_n", PyFloat P_cr);
          ("critical_load_kn", PyFloat (P_cr / 1000));
          ("slenderness_ratio", PyFloat slenderness);
          ("end_condition", PyStr tag);
          ("is_long_column", PyBool (gt slenderness 120)) ].

(** An outcome of a beam operation whose stress [s] came out zero or NaN:
    [ZeroDivisionError] at the safety-factor line [lineno] for a zero, a
    record of NaN stress and NaN safety factor for a NaN. *)
Definition without_stress
    (c : result BeamAnalysisResult) (lineno : nat) (s : float) : Prop :=
  ((s =? 0) = true /\ c = Raise (ZeroDivisionError lineno)) \/
  (is_nan s = true /\
   exists r, c = Ok r /\
             is_nan (max_stress r) = true /\ is_nan (safety_factor r) = true).

(** The reading of a zero moment under which every such call raises at
    the safety-factor line: positive length, width and height, and a
    computed maximum moment that compares equal to zero. *)
Definition zero_moment_faults_at_safety_factor : Prop :=
  (forall (m : Material) (L P a w h : float),
     (0 <? L) = true -> (0 <? w) = true -> (0 <? h) = true ->
     (P * a * (L - a) / L =? 0) = true ->
     BeamAnalyzer.simply_supported_point_load (BeamAnalyzer.init m) L P a w h
       = Raise (ZeroDivisionError 144)) /\
  (forall (m : Material) (L P w h : float),
     (0 <? L) = true -> (0 <? w) = true -> (0 <? h) = true ->
     (P * L =? 0) = true ->
     BeamAnalyzer.cantilever_beam (BeamAnalyzer.init m) L P w h
       = Raise (ZeroDivisionError 199)) /\
  (forall (m : Material) (L q w h L2 : float),
     (0 <? L) = true -> (0 <? w) = true -> (0 <? h) = true ->
     pow 239 L 2 = Ok L2 -> (q * L2 / 8 =? 0) = true ->
     BeamAnalyzer.distributed_load_beam (BeamAnalyzer.init m) L q w h
       = Raise (ZeroDivisionError 255)).

End Analyses.

End Formula.

(** A C library whose [pow] always fails; it stands in wherever a run
    never reaches the library, every power being one of the cases
    [float_pow] answers itself. *)
Definition libm_unreached : Libm :=
  {| libm_pow := fun _ _ => (nan, EDOM) |}.

(** A sample C library for running the engine on concrete inputs: for the
    exponents the engine uses, [pow(x, n)] is the product of [n] factors,
    rounded after each multiplication, and no error is reported.  It
    serves the concrete runs below; every theorem holds for all
    libraries. *)
Definition libm_products : Libm :=
  {| libm_pow := fun x y =>
       if y =? 2 then (x * x, ENONE)
       else if y =? 3 then (x * x * x, ENONE)
       else if y =? 4 then (x * x * x * x, ENONE)
       else (nan, EDOM) |}.

End Binary64.

(** * Properties of the engine on binary64 *)

Section OnBinary64.

Import Floats.
Import Binary64.
Local Open Scope float_scope.

(** ** Zeros and NaNs *)

Lemma SFcompare_refl (x : spec_float) : x <> S754_nan -> SFcompare x x = Some Eq.
Proof.
  destruct x as [s | s | | s mx ex]; intros H; try reflexivity.
  - destruct s; reflexivity.
  - contradiction H; reflexivity.
  - cbn. destruct s; rewrite Z.compare_refl, Pos.compare_cont_refl; reflexivity.
Qed.

Lemma is_nan_spec (x : float) : is_nan x = true <-> Prim2SF x = S754_nan.
Proof.
  unfold is_nan. rewrite FloatAxioms.eqb_spec. unfold SFeqb. split.
  - intros H. destruct (Prim2SF x) eqn:Hx; try reflexivity;
      rewrite SFcompare_refl in H by discriminate; discriminate H.
  - intros ->. reflexivity.
Qed.

Lemma is_zero_spec (x : float) : (x =? 0) = true <-> exists s, Prim2SF x = S754_zero s.
Proof.
  rewrite FloatAxioms.eqb_spec. change (Prim2SF 0) with (S754_zero false).
  destruct (Prim2SF x) as [s | s | | s mx ex]; cbn.
  - split; [ intros _; exists s; reflexivity | reflexivity ].
  - split; [ destruct s; discriminate | intros [s' H]; discriminate H ].
  - split; [ discriminate | intros [s' H]; discriminate H ].
  - split; [ destruct s; discriminate | intros [s' H]; discriminate H ].
Qed.

Lemma zero_or_nan_spec (x : float) :
  Formula.zero_or_nan x <->
  (exists s, Prim2SF x = S754_zero s) \/ Prim2SF x = S754_nan.
Proof. unfold Formula.zero_or_nan. rewrite is_zero_spec, is_nan_spec. reflexivity. Qed.

(** A zero or NaN factor gives a zero or NaN product: zero times a finite
    number is a zero, zero times an infinity is NaN. *)
Lemma zero_or_nan_mul (x y : float) :
  Formula.zero_or_nan x -> Formula.zero_or_nan (x * y).
Proof.
  rewrite !zero_or_nan_spec, FloatAxioms.mul_spec. unfold SF64mul.
  intros [[s ->] | ->].
  - destruct (Prim2SF y) as [s' | s' | | s' my ey]; cbn; eauto.
  - right. reflexivity.
Qed.

(** A zero or NaN dividend gives a zero or NaN quotient. *)
Lemma zero_or_nan_div (x y : float) :
  Formula.zero_or_nan x -> Formula.zero_or_nan (x / y).
Proof.
  rewrite !zero_or_nan_spec, FloatAxioms.div_spec. unfold SF64div.
  intros [[s ->] | ->].
  - destruct (Prim2SF y) as [s' | s' | | s' my ey]; cbn; eauto.
  - right. reflexivity.
Qed.

Lemma is_nan_div_r (x y : float) : is_nan y = true -> is_nan (x / y) = true.
Proof.
  rewrite !is_nan_spec, FloatAxioms.div_spec. unfold SF64div. intros ->.
  destruct (Prim2SF x); reflexivity.
Qed.

Lemma is_nan_nonzero (x : float) : is_nan x = true -> (x =? 0) = false.
Proof.
  rewrite is_nan_spec, FloatAxioms.eqb_spec. intros ->. reflexivity.
Qed.

Lemma leb_nan_r (x y : float) : is_nan y = true -> (x <=? y) = false.
Proof.
  rewrite is_nan_spec, FloatAxioms.leb_spec. intros ->. unfold SFleb.
  destruct (Prim2SF x); reflexivity.
Qed.

Lemma SFcompare_Lt_Gt (x y : spec_float) :
  SFcompare x y = Some Lt -> SFcompare y x = Some Gt.
Proof.
  destruct x as [s | s | | s mx ex], y as [s' | s' | | s' my ey]; cbn;
    try discriminate; try (destruct s; discriminate); try (destruct s'; discriminate);
    try (destruct s, s'; (discriminate || reflexivity)).
  assert (Hm : Pos.compare_cont Eq my mx = CompOpp (Pos.compare_cont Eq mx my))
    by (rewrite Pos.compare_cont_antisym; reflexivity).
  destruct s, s'; try discriminate; try reflexivity;
    rewrite (Z.compare_antisym ex ey), Hm;
    destruct (ex ?= ey)%Z; cbn; try discriminate; try reflexivity;
    destruct (Pos.compare_cont Eq mx my); cbn; intros H; try discriminate H; reflexivity.
Qed.

(** [x < y] excludes [x >= y]. *)
Lemma ltb_leb_false (x y : float) : (x <? y) = true -> (y <=? x) = false.
Proof.
  rewrite FloatAxioms.ltb_spec, FloatAxioms.leb_spec. unfold SFltb, SFleb.
  destruct (SFcompare (Prim2SF x) (Prim2SF y)) as [[ | | ] | ] eqn:H; try discriminate.
  intros _. rewrite (SFcompare_Lt_Gt _ _ H). reflexivity.
Qed.

(** The bending stress of a zero or NaN moment is a zero or NaN. *)
Lemma bending_stress_zero_or_nan (M h I : float) :
  Formula.zero_or_nan M -> Formula.zero_or_nan (Formula.bending_stress_mpa M h I).
Proof.
  intros H. unfold Formula.bending_stress_mpa.
  apply zero_or_nan_div, zero_or_nan_div, zero_or_nan_mul, H.
Qed.

(** ** Running a chain of operations *)

Lemma truediv64_Ok (l : nat) (x y : float) :
  (y =? 0) = false -> truediv l x y = Ok (x / y).
Proof. intros H. unfold truediv. rewrite H. reflexivity. Qed.

Lemma truediv64_Raise (l : nat) (x y : float) :
  (y =? 0) = true -> truediv l x y = Raise (ZeroDivisionError l).
Proof. intros H. unfold truediv. rewrite H. reflexivity. Qed.

Lemma bind_truediv64_inv {A : Type} (l : nat) (x y : float)
    (k : float -> result A) (r : A) :
  bind (truediv l x y) k = Ok r -> (y =? 0) = false /\ k (x / y) = Ok r.
Proof.
  unfold truediv. destruct (y =? 0); cbn; intros H; [ discriminate H | tauto ].
Qed.

Lemma bind64_assoc {A B C : Type} (c : result A) (k : A -> result B)
    (k' : B -> result C) :
  bind (bind c k) k' = bind c (fun a => bind (k a) k').
Proof. destruct c; reflexivity. Qed.

(** A chain that returned went through every step: each power and square
    root returned and each divisor was non-zero. *)
Ltac invert64 H :=
  repeat
    match type of H with
    | bind (truediv ?l ?x ?y) _ = Ok _ =>
        let Hz := fresh "Hz" in
        apply bind_truediv64_inv in H; destruct H as [Hz H]
    | bind (pow ?l ?x ?n) _ = Ok _ =>
        let v := fresh "p" in
        let Hp := fresh "Hp" in
        destruct (pow l x n) as [v | ?] eqn:Hp; cbn [bind] in H;
        [ | discriminate H ]
    | bind (math_sqrt ?l ?x) _ = Ok _ =>
        let v := fresh "s" in
        let Hs := fresh "Hs" in
        destruct (math_sqrt l x) as [v | ?] eqn:Hs; cbn [bind] in H;
        [ | discriminate H ]
    | bind (bind _ _) _ = Ok _ => rewrite bind64_assoc in H
    | bind (if ?c then _ else _) _ = Ok _ =>
        let Hc := fresh "Hc" in destruct c eqn:Hc
    end;
  unfold ret in H; injection H as H.

(** Conversely, a chain whose steps all succeed runs to its end. *)
Ltac run64 :=
  repeat
    (first [ rewrite truediv64_Ok by (assumption || reflexivity)
           | match goal with Hp : pow _ _ _ = Ok _ |- _ => rewrite Hp end
           | match goal with Hs : math_sqrt _ _ = Ok _ |- _ => rewrite Hs end ];
     cbn [bind ret]).

(** Evaluates a closed formula of the specification. *)
Ltac compute64 := repeat (cbv; first [ reflexivity | split | eexists ]).

Section Beams64.

Context {libm : Libm}.
Variable m : Material.

(** The chain of [simply_supported_point_load] up to the safety factor. *)
Lemma simply_supported_point_load_chain (L P a w h M d s V : float) :
  Formula.simply_supported_point_load m L P a w h M d s V ->
  BeamAnalyzer.simply_supported_point_load (BeamAnalyzer.init m) L P a w h =
  bind (truediv 144 (yield_strength m) s)
       (fun f => Ok {| max_deflection := d; max_stress := s; max_moment := M;
                       max_shear := V; safety_factor := f;
                       weight := L * w * h * density m;
                       cost := L * w * h * density m * cost_per_kg m |}).
Proof.
  intros (h3 & d_m & Hh & HL & Hd & HI & -> & -> & -> & ->).
  unfold Formula.point_load_deflection, Formula.second_moment,
    Formula.modulus_pa, Formula.bending_stress_mpa in *.
  unfold BeamAnalyzer.simply_supported_point_load; cbn [BeamAnalyzer.material].
  unfold lt.
  destruct (abs (a - (L - a)) <? 0.01).
  - destruct Hd as (L3 & HL3 & Hz & ->). run64. reflexivity.
  - destruct Hd as (a2 & b2 & Ha2 & Hb2 & Hz & ->). run64. reflexivity.
Qed.

Lemma simply_supported_point_load_run (L P a w h : float) (r : BeamAnalysisResult) :
  BeamAnalyzer.simply_supported_point_load (BeamAnalyzer.init m) L P a w h = Ok r <->
  exists M d s V,
    Formula.simply_supported_point_load m L P a w h M d s V /\
    (s =? 0) = false /\
    r = Formula.result_of m L w h M d s V.
Proof.
  split.
  - unfold BeamAnalyzer.simply_supported_point_load; cbn [BeamAnalyzer.material].
    intros H. invert64 H.
    + do 4 eexists. split; [ | split; [ | symmetry; exact H ] ]; [ | eassumption ].
      exists p, (P * p0 / (48 * (youngs_modulus m * 1e9) * (w * p / 12))).
      unfold Formula.point_load_deflection. unfold lt in Hc. rewrite Hc.
      cbv zeta. repeat split; try assumption.
      exists p0. repeat split; assumption.
    + do 4 eexists. split; [ | split; [ | symmetry; exact H ] ]; [ | eassumption ].
      exists p, (P * p0 * p1 / (3 * (youngs_modulus m * 1e9) * (w * p / 12) * L)).
      unfold Formula.point_load_deflection. unfold lt in Hc. rewrite Hc.
      cbv zeta. repeat split; try assumption.
      exists p0, p1. repeat split; assumption.
  - intros (M & d & s & V & H & Hs & ->).
    rewrite (simply_supported_point_load_chain _ _ _ _ _ _ _ _ _ H).
    rewrite truediv64_Ok by exact Hs. reflexivity.
Qed.

Lemma simply_supported_point_load_zero_stress (L P a w h M d s V : float) :
  Formula.simply_supported_point_load m L P a w h M d s V ->
  (s =? 0) = true ->
  BeamAnalyzer.simply_supported_point_load (BeamAnalyzer.init m) L P a w h =
  Raise (ZeroDivisionError 144).
Proof.
  intros H Hs. rewrite (simply_supported_point_load_chain _ _ _ _ _ _ _ _ _ H).
  rewrite truediv64_Raise by exact Hs. reflexivity.
Qed.

(** The chain of [cantilever_beam] up to the safety factor. *)
Lemma cantilever_beam_chain (L P w h M d s V : float) :
  Formula.cantilever_beam m L P w h M d s V ->
  BeamAnalyzer.cantilever_beam (BeamAnalyzer.init m) L P w h =
  bind (truediv 199 (yield_strength m) s)
       (fun f => Ok {| max_deflection := d; max_stress := s; max_moment := M;
                       max_shear := V; safety_factor := f;
                       weight := L * w * h * density m;
                       cost := L * w * h * density m * cost_per_kg m |}).
Proof.
  intros (h3 & L3 & Hh & HL & Hz & HI & -> & -> & -> & ->).
  unfold Formula.second_moment, Formula.modulus_pa, Formula.bending_stress_mpa in *.
  unfold BeamAnalyzer.cantilever_beam; cbn [BeamAnalyzer.material].
  run64. reflexivity.
Qed.

Lemma cantilever_beam_run (L P w h : float) (r : BeamAnalysisResult) :
  BeamAnalyzer.cantilever_beam (BeamAnalyzer.init m) L P w h = Ok r <->
  exists M d s V,
    Formula.cantilever_beam m L P w h M d s V /\
    (s =? 0) = false /\
    r = Formula.result_of m L w h M d s V.
Proof.
  split.
  - unfold BeamAnalyzer.cantilever_beam; cbn [BeamAnalyzer.material].
    intros H. invert64 H.
    do 4 eexists. split; [ | split; [ | symmetry; exact H ] ]; [ | eassumption ].
    exists p, p0. cbv zeta. repeat split; assumption.
  - intros (M & d & s & V & H & Hs & ->).
    rewrite (cantilever_beam_chain _ _ _ _ _ _ _ _ H).
    rewrite truediv64_Ok by exact Hs. reflexivity.
Qed.

Lemma cantilever_beam_zero_stress (L P w h M d s V : float) :
  Formula.cantilever_beam m L P w h M d s V ->
  (s =? 0) = true ->
  BeamAnalyzer.cantilever_beam (BeamAnalyzer.init m) L P w h =
  Raise (ZeroDivisionError 199).
Proof.
  intros H Hs. rewrite (cantilever_beam_chain _ _ _ _ _ _ _ _ H).
  rewrite truediv64_Raise by exact Hs. reflexivity.
Qed.

(** The chain of [distributed_load_beam] up to the safety factor. *)
Lemma distributed_load_beam_chain (L q w h M d s V : float) :
  Formula.distributed_load_beam m L q w h M d s V ->
  BeamAnalyzer.distributed_load_beam (BeamAnalyzer.init m) L q w h =
  bind (truediv 255 (yield_strength m) s)
       (fun f => Ok {| max_deflection := d; max_stress := s; max_moment := M;
                       max_shear := V; safety_factor := f;
                       weight := L * w * h * density m;
                       cost := L * w * h * density m * cost_per_kg m |}).
Proof.
  intros (h3 & L2 & L4 & Hh & HL2 & HL4 & Hz & HI & -> & -> & -> & ->).
  unfold Formula.second_moment, Formula.modulus_pa, Formula.bending_stress_mpa in *.
  unfold BeamAnalyzer.distributed_load_beam; cbn [BeamAnalyzer.material].
  run64. reflexivity.
Qed.

Lemma distributed_load_beam_run (L q w h : float) (r : BeamAnalysisResult) :
  BeamAnalyzer.distributed_load_beam (BeamAnalyzer.init m) L q w h = Ok r <->
  exists M d s V,
    Formula.distributed_load_beam m L q w h M d s V /\
    (s =? 0) = false /\
    r = Formula.result_of m L w h M d s V.
Proof.
  split.
  - unfold BeamAnalyzer.distributed_load_beam; cbn [BeamAnalyzer.material].
    intros H. invert64 H.
    do 4 eexists. split; [ | split; [ | symmetry; exact H ] ]; [ | eassumption ].
    exists p, p0, p1. cbv zeta. repeat split; assumption.
  - intros (M & d & s & V & H & Hs & ->).
    rewrite (distributed_load_beam_chain _ _ _ _ _ _ _ _ H).
    rewrite truediv64_Ok by exact Hs. reflexivity.
Qed.

Lemma distributed_load_beam_zero_stress (L q w h M d s V : float) :
  Formula.distributed_load_beam m L q w h M d s V ->
  (s =? 0) = true ->
  BeamAnalyzer.distributed_load_beam (BeamAnalyzer.init m) L q w h =
  Raise (ZeroDivisionError 255).
Proof.
  intros H Hs. rewrite (distributed_load_beam_chain _ _ _ _ _ _ _ _ H).
  rewrite truediv64_Raise by exact Hs. reflexivity.
Qed.

(** An analysis that reaches the safety-factor line returns its record
    when the stress is not zero, whatever the safety factor comes to. *)
Lemma unsafe_reported (L w h M d s V : float) :
  let r := Formula.result_of m L w h M d s V in
  (safety_factor r <? 1.5) = true -> is_safe r None = false.
Proof.
  cbv zeta. unfold is_safe, ge. apply ltb_leb_false.
Qed.

(** The outcome of a chain that reaches the safety-factor line with a
    zero or NaN stress. *)
Lemma without_stress_outcome (c : result BeamAnalysisResult) (lineno : nat)
    (L w h M d s V : float) :
  c = bind (truediv lineno (yield_strength m) s)
           (fun f => Ok {| max_deflection := d; max_stress := s; max_moment := M;
                           max_shear := V; safety_factor := f;
                           weight := L * w * h * density m;
                           cost := L * w * h * density m * cost_per_kg m |}) ->
  Formula.zero_or_nan s ->
  Formula.without_stress c lineno s.
Proof.
  intros -> [Hs | Hs].
  - left. split; [ exact Hs | ]. rewrite truediv64_Raise by exact Hs. reflexivity.
  - right. split; [ exact Hs | ].
    rewrite truediv64_Ok by (apply is_nan_nonzero, Hs). cbn [bind].
    eexists. split; [ reflexivity | ]. cbn [max_stress safety_factor].
    split; [ exact Hs | apply is_nan_div_r, Hs ].
Qed.

End Beams64.

Section Columns64.

Context {libm : Libm}.
Variable m : Material.

Lemma euler_buckling_load_run (L w h : float) (tag : string) (d : dict pyval) :
  ColumnAnalyzer.euler_buckling_load (ColumnAnalyzer.init m) L w h tag = Ok d <->
  Formula.euler_buckling_load m L w h (get ColumnAnalyzer.K_factors tag 1.0) tag d.
Proof.
  unfold ColumnAnalyzer.euler_buckling_load, Formula.euler_buckling_load;
    cbn [ColumnAnalyzer.material].
  set (K := get ColumnAnalyzer.K_factors tag 1.0).
  unfold Formula.second_moment, Formula.modulus_pa, gt.
  split.
  - intros H. invert64 H.
    exists p, p0, p1, p2, s. cbv zeta. repeat split; try assumption.
    symmetry. exact H.
  - intros (h3 & w3 & pi2 & L_e2 & r & Hh & Hw & Hpi & HLe & Hz & HA & Hs & Hr & ->).
    run64. reflexivity.
Qed.

End Columns64.

Lemma K_factors64_recognized (tag : string) (K : float) :
  Formula.end_factor tag K -> get ColumnAnalyzer.K_factors tag 1.0 = K.
Proof. intros H. destruct H; reflexivity. Qed.

Lemma K_factors64_unrecognized (tag : string) :
  ~ Formula.recognized tag -> lookup ColumnAnalyzer.K_factors tag = None.
Proof.
  intros H. unfold ColumnAnalyzer.K_factors. cbn [lookup].
  repeat
    match goal with
    | |- context [String.eqb ?k tag] =>
        destruct (String.eqb_spec k tag) as [<- | _];
        [ exfalso; apply H; eexists; constructor | ]
    end.
  reflexivity.
Qed.

(** ** The beam operations meet their formulas *)

(** C1.  For all arguments and every C library, a call of
    [simply_supported_point_load] returns the record [r] exactly when the
    formulas of the specification are defined (every power returns, no
    divisor compares equal to zero) and [r] holds their values: moment
    [P a b / L] with [b = L - a]; deflection in mm from
    [P L^3 / (48 E I)] when [abs (a - b) < 0.01] and from
    [P a^2 b^2 / (3 E I L)] otherwise, with [E = youngs_modulus * 1e9]
    and [I = width * height^3 / 12]; shear [max (P b / L) (P a / L)];
    stress [M (height / 2) / I / 1e6]; safety factor
    [yield_strength / stress].  Positive length, width and height are not
    needed, and do not secure a result. *)
Theorem simply_supported_point_load_formulas {libm : Libm}
    (m : Material) (L P a w h : float) (r : BeamAnalysisResult) :
  BeamAnalyzer.simply_supported_point_load (BeamAnalyzer.init m) L P a w h = Ok r <->
  exists M d s V,
    Formula.simply_supported_point_load m L P a w h M d s V /\
    (s =? 0) = false /\
    r = Formula.result_of m L w h M d s V.
Proof. apply simply_supported_point_load_run. Qed.

Lemma simply_supported_point_load_formulas_witness :
  BeamAnalyzer.simply_supported_point_load (libm := libm_unreached)
    (BeamAnalyzer.init steel_a36) 1 1000 0.5 0.05 1 =
  Ok {| max_deflection := 2.4999999999999998e-05;
        max_stress := 0.03;
        max_moment := 250;
        max_shear := 500;
        safety_factor := 8333.333333333334;
        weight := 392.5;
        cost := 588.75 |}.
Proof.
  apply simply_supported_point_load_formulas.
  exists 250, 2.4999999999999998e-05, 0.03, 500.
  split; [ | split; reflexivity ].
  compute64.
Defined.

(** C3.  For all arguments and every C library, a call of
    [distributed_load_beam] returns the record [r] exactly when the
    formulas of the specification are defined (every power returns, no
    divisor compares equal to zero) and [r] holds their values: moment
    [q L^2 / 8]; deflection in mm from [5 q L^4 / (384 E I)], with
    [E = youngs_modulus * 1e9] and [I = width * height^3 / 12]; shear
    [q L / 2]; stress [M (height / 2) / I / 1e6]; safety factor
    [yield_strength / stress]. *)
Theorem distributed_load_beam_formulas {libm : Libm}
    (m : Material) (L q w h : float) (r : BeamAnalysisResult) :
  BeamAnalyzer.distributed_load_beam (BeamAnalyzer.init m) L q w h = Ok r <->
  exists M d s V,
    Formula.distributed_load_beam m L q w h M d s V /\
    (s =? 0) = false /\
    r = Formula.result_of m L w h M d s V.
Proof. apply distributed_load_beam_run. Qed.

Lemma distributed_load_beam_formulas_witness :
  BeamAnalyzer.distributed_load_beam (libm := libm_unreached)
    (BeamAnalyzer.init steel_a36) 1 1000 0.05 1 =
  Ok {| max_deflection := 1.5625e-05;
        max_stress := 0.015;
        max_moment := 125;
        max_shear := 500;
        safety_factor := 16666.666666666668;
        weight := 392.5;
        cost := 588.75 |}.
Proof.
  apply distributed_load_beam_formulas.
  exists 125, 1.5625e-05, 0.015, 500.
  split; [ | split; reflexivity ].
  compute64.
Defined.

(** C4.  For all arguments and every C library, a call of
    [cantilever_beam] returns the record [r] exactly when the formulas of
    the specification are defined (every power returns, no divisor
    compares equal to zero) and [r] holds their values: moment [P L];
    deflection in mm from [P L^3 / (3 E I)], with
    [E = youngs_modulus * 1e9] and [I = width * height^3 / 12]; shear
    [P]; stress [M (height / 2) / I / 1e6]; safety factor
    [yield_strength / stress]. *)
Theorem cantilever_beam_formulas {libm : Libm}
    (m : Material) (L P w h : float) (r : BeamAnalysisResult) :
  BeamAnalyzer.cantilever_beam (BeamAnalyzer.init m) L P w h = Ok r <->
  exists M d s V,
    Formula.cantilever_beam m L P w h M d s V /\
    (s =? 0) = false /\
    r = Formula.result_of m L w h M d s V.
Proof. apply cantilever_beam_run. Qed.

Lemma cantilever_beam_formulas_witness :
  BeamAnalyzer.cantilever_beam (libm := libm_unreached)
    (BeamAnalyzer.init steel_a36) 1 1000 0.05 1 =
  Ok {| max_deflection := 0.00039999999999999996;
        max_stress := 0.12;
        max_moment := 1000;
        max_shear := 1000;
        safety_factor := 2083.3333333333335;
        weight := 392.5;
        cost := 588.75 |}.
Proof.
  apply cantilever_beam_formulas.
  exists 1000, 0.00039999999999999996, 0.12, 1000.
  split; [ | split; reflexivity ].
  compute64.
Defined.

(** ** Safety threshold and unsafe designs *)

(** C9.  [is_safe] is the comparison [safety_factor >= threshold] of
    binary64, with 1.5 for a threshold left out, so it is false when the
    safety factor is below the threshold; and an analysis that reaches
    the safety-factor line with a stress that is not zero returns its
    record whatever the safety factor comes to: below 1.5 the record is
    returned all the same and [is_safe()] is false on it. *)
Theorem is_safe_threshold_and_unsafe_results :
  (forall (r : BeamAnalysisResult) (t : float),
     (is_safe r (Some t) = true <-> (t <=? safety_factor r) = true) /\
     is_safe r None = is_safe r (Some 1.5) /\
     ((safety_factor r <? t) = true -> is_safe r (Some t) = false)) /\
  (forall (libm : Libm) (m : Material) (L P a w h M d s V : float),
     Formula.simply_supported_point_load m L P a w h M d s V ->
     (s =? 0) = false ->
     BeamAnalyzer.simply_supported_point_load (BeamAnalyzer.init m) L P a w h
       = Ok (Formula.result_of m L w h M d s V) /\
     ((yield_strength m / s <? 1.5) = true ->
      is_safe (Formula.result_of m L w h M d s V) None = false)) /\
  (forall (libm : Libm) (m : Material) (L P w h M d s V : float),
     Formula.cantilever_beam m L P w h M d s V ->
     (s =? 0) = false ->
     BeamAnalyzer.cantilever_beam (BeamAnalyzer.init m) L P w h
       = Ok (Formula.result_of m L w h M d s V) /\
     ((yield_strength m / s <? 1.5) = true ->
      is_safe (Formula.result_of m L w h M d s V) None = false)) /\
  (forall (libm : Libm) (m : Material) (L q w h M d s V : float),
     Formula.distributed_load_beam m L q w h M d s V ->
     (s =? 0) = false ->
     BeamAnalyzer.distributed_load_beam (BeamAnalyzer.init m) L q w h
       = Ok (Formula.result_of m L w h M d s V) /\
     ((yield_strength m / s <? 1.5) = true ->
      is_safe (Formula.result_of m L w h M d s V) None = false)).
Proof.
  split; [ | split; [ | split ] ].
  - intros r t. split; [ | split ].
    + unfold is_safe, ge. reflexivity.
    + reflexivity.
    + unfold is_safe, ge. apply ltb_leb_false.
  - intros libm m L P a w h M d s V H Hs. split.
    + apply simply_supported_point_load_run. exists M, d, s, V. auto.
    + apply (unsafe_reported m L w h M d s V).
  - intros libm m L P w h M d s V H Hs. split.
    + apply cantilever_beam_run. exists M, d, s, V. auto.
    + apply (unsafe_reported m L w h M d s V).
  - intros libm m L q w h M d s V H Hs. split.
    + apply distributed_load_beam_run. exists M, d, s, V. auto.
    + apply (unsafe_reported m L w h M d s V).
Qed.

Lemma is_safe_threshold_and_unsafe_results_witness :
  BeamAnalyzer.cantilever_beam (libm := libm_unreached)
    (BeamAnalyzer.init steel_a36) 1 1e7 0.05 1 =
  Ok {| max_deflection := 4;
        max_stress := 1200;
        max_moment := 1e7;
        max_shear := 1e7;
        safety_factor := 0.20833333333333334;
        weight := 392.5;
        cost := 588.75 |} /\
  is_safe {| max_deflection := 4;
             max_stress := 1200;
             max_moment := 1e7;
             max_shear := 1e7;
             safety_factor := 0.20833333333333334;
             weight := 392.5;
             cost := 588.75 |} None = false.
Proof.
  assert (H : Formula.cantilever_beam (libm := libm_unreached)
                steel_a36 1 1e7 0.05 1 1e7 4 1200 1e7) by compute64.
  destruct (proj1 (proj2 (proj2 is_safe_threshold_and_unsafe_results))
              libm_unreached steel_a36 1 1e7 0.05 1 1e7 4 1200 1e7 H eq_refl)
    as [Hr Hu].
  split; [ exact Hr | exact (Hu eq_refl) ].
Defined.

(** ** Zero moment *)

(** C10, as the specification states it, fails, whatever the C library:
    with a zero load on a cantilever of positive length, width and
    height, [cantilever_beam(1.0, 0.0, 5e-324, 1.0)], the second moment
    of area underflows to zero and the deflection at line 187 raises; the
    stress is never evaluated and the safety-factor line is not
    reached. *)
Lemma zero_moment_fault_elsewhere :
  ~ exists libm : Libm, Formula.zero_moment_faults_at_safety_factor (libm := libm).
Proof.
  intros [libm (_ & Hc & _)].
  specialize (Hc steel_a36 1 0 5e-324 1 eq_refl eq_refl eq_refl eq_refl).
  vm_compute in Hc. discriminate Hc.
Qed.

(** A zero load on a cantilever of infinite height,
    [cantilever_beam(1.0, 0.0, 1.0, inf)], is not refused at all: zero
    times infinity is NaN, no divisor compares equal to zero, and a
    record of NaN stress and NaN safety factor is returned. *)
Example zero_moment_nan_record :
  BeamAnalyzer.cantilever_beam (libm := libm_unreached)
    (BeamAnalyzer.init steel_a36) 1 0 1 infinity =
  Ok {| max_deflection := 0;
        max_stress := nan;
        max_moment := 0;
        max_shear := 0;
        safety_factor := nan;
        weight := infinity;
        cost := infinity |}.
Proof. vm_compute. reflexivity. Qed.

(** C10, amended.  An analysis that reaches the safety-factor line with
    a maximum moment that is zero (or NaN, as a zero load makes it on an
    infinite length) has a zero or NaN stress, and its call either raises
    [ZeroDivisionError] at that line, for a zero stress, or returns a
    record of NaN stress and NaN safety factor; so no call returns a
    record with a zero or NaN moment and a stress that is a number. *)
Theorem zero_moment_outcome {libm : Libm} (m : Material) :
  (forall (L P a w h M d s V : float),
     Formula.simply_supported_point_load m L P a w h M d s V ->
     Formula.zero_or_nan M ->
     Formula.without_stress
       (BeamAnalyzer.simply_supported_point_load (BeamAnalyzer.init m) L P a w h)
       144 s) /\
  (forall (L P w h M d s V : float),
     Formula.cantilever_beam m L P w h M d s V ->
     Formula.zero_or_nan M ->
     Formula.without_stress
       (BeamAnalyzer.cantilever_beam (BeamAnalyzer.init m) L P w h) 199 s) /\
  (forall (L q w h M d s V : float),
     Formula.distributed_load_beam m L q w h M d s V ->
     Formula.zero_or_nan M ->
     Formula.without_stress
       (BeamAnalyzer.distributed_load_beam (BeamAnalyzer.init m) L q w h) 255 s) /\
  (forall (L P a w h : float) (r : BeamAnalysisResult),
     (BeamAnalyzer.simply_supported_point_load (BeamAnalyzer.init m) L P a w h = Ok r \/
      BeamAnalyzer.cantilever_beam (BeamAnalyzer.init m) L P w h = Ok r \/
      BeamAnalyzer.distributed_load_beam (BeamAnalyzer.init m) L P w h = Ok r) ->
     Formula.zero_or_nan (max_moment r) ->
     is_nan (max_stress r) = true /\ is_nan (safety_factor r) = true).
Proof.
  assert (Hssp : forall L P a w h M d s V,
             Formula.simply_supported_point_load m L P a w h M d s V ->
             Formula.zero_or_nan M ->
             Formula.without_stress
               (BeamAnalyzer.simply_supported_point_load (BeamAnalyzer.init m) L P a w h)
               144 s).
  { intros L P a w h M d s V H HM.
    apply (without_stress_outcome m _ _ L w h M d s V).
    - apply simply_supported_point_load_chain, H.
    - destruct H as (h3 & d_m & _ & _ & _ & _ & _ & _ & -> & _).
      apply bending_stress_zero_or_nan, HM. }
  assert (Hcant : forall L P w h M d s V,
             Formula.cantilever_beam m L P w h M d s V ->
             Formula.zero_or_nan M ->
             Formula.without_stress
               (BeamAnalyzer.cantilever_beam (BeamAnalyzer.init m) L P w h) 199 s).
  { intros L P w h M d s V H HM.
    apply (without_stress_outcome m _ _ L w h M d s V).
    - apply cantilever_beam_chain, H.
    - destruct H as (h3 & L3 & _ & _ & _ & _ & _ & _ & -> & _).
      apply bending_stress_zero_or_nan, HM. }
  assert (Hdist : forall L q w h M d s V,
             Formula.distributed_load_beam m L q w h M d s V ->
             Formula.zero_or_nan M ->
             Formula.without_stress
               (BeamAnalyzer.distributed_load_beam (BeamAnalyzer.init m) L q w h) 255 s).
  { intros L q w h M d s V H HM.
    apply (without_stress_outcome m _ _ L w h M d s V).
    - apply distributed_load_beam_chain, H.
    - destruct H as (h3 & L2 & L4 & _ & _ & _ & _ & _ & _ & _ & -> & _).
      apply bending_stress_zero_or_nan, HM. }
  split; [ exact Hssp | split; [ exact Hcant | split; [ exact Hdist | ] ] ].
  intros L P a w h r Hr HM.
  assert (Hout : exists c lineno s,
             c = Ok r /\ Formula.without_stress c lineno s).
  { destruct Hr as [Hr | [Hr | Hr]].
    - destruct (proj1 (simply_supported_point_load_run m L P a w h r) Hr)
        as (M & d & s & V & H & _ & ->).
      eexists _, 144%nat, s. split; [ exact Hr | ]. apply (Hssp _ _ _ _ _ _ _ _ _ H HM).
    - destruct (proj1 (cantilever_beam_run m L P w h r) Hr)
        as (M & d & s & V & H & _ & ->).
      eexists _, 199%nat, s. split; [ exact Hr | ]. apply (Hcant _ _ _ _ _ _ _ _ H HM).
    - destruct (proj1 (distributed_load_beam_run m L P w h r) Hr)
        as (M & d & s & V & H & _ & ->).
      eexists _, 255%nat, s. split; [ exact Hr | ]. apply (Hdist _ _ _ _ _ _ _ _ H HM). }
  destruct Hout as (c & lineno & s & -> & [[_ Hc] | (_ & r' & Hc & Hn)]).
  - discriminate Hc.
  - injection Hc as <-. exact Hn.
Qed.

Lemma zero_moment_outcome_witness :
  BeamAnalyzer.cantilever_beam (libm := libm_unreached)
    (BeamAnalyzer.init steel_a36) 1 0 0.05 1 = Raise (ZeroDivisionError 199).
Proof.
  assert (H : Formula.cantilever_beam (libm := libm_unreached)
                steel_a36 1 0 0.05 1 0 0 0 0) by compute64.
  destruct (proj1 (proj2 (zero_moment_outcome (libm := libm_unreached) steel_a36))
              1 0 0.05 1 0 0 0 0 H (or_introl eq_refl))
    as [[_ Hc] | [Hn _]].
  - exact Hc.
  - discriminate Hn.
Defined.

(** ** The column operation meets its formulas *)

(** C2.  For a recognised end condition with effective-length factor
    [K] (1.0 pinned-pinned, 2.0 fixed-free, 0.5 fixed-fixed, 0.7
    fixed-pinned), all arguments and every C library, a call of
    [euler_buckling_load] returns the dict [d] exactly when the formulas
    of the specification are defined and [d] holds their values:
    critical load [pi^2 E I_min / L_e^2] in N and in kN, with
    [L_e = K * length] and [I_min] the smaller of
    [width * height^3 / 12] and [height * width^3 / 12]; slenderness
    ratio [L_e / sqrt (I_min / (width * height))]; the tag; and
    [is_long_column], the comparison [slenderness_ratio > 120]. *)
Theorem euler_buckling_load_formulas {libm : Libm}
    (m : Material) (L w h : float) (tag : string) (K : float) (d : dict pyval) :
  Formula.end_factor tag K ->
  (ColumnAnalyzer.euler_buckling_load (ColumnAnalyzer.init m) L w h tag = Ok d <->
   Formula.euler_buckling_load m L w h K tag d).
Proof.
  intros HK. rewrite <- (K_factors64_recognized tag K HK).
  apply euler_buckling_load_run.
Qed.

Lemma euler_buckling_load_formulas_witness :
  ColumnAnalyzer.euler_buckling_load (libm := libm_products)
    (ColumnAnalyzer.init steel_a36) 3 0.1 0.2 "fixed-free" =
  Ok [ ("critical_load_n", PyFloat 913852.259360126);
       ("critical_load_kn", PyFloat 913.852259360126);
       ("slenderness_ratio", PyFloat 207.84609690826525);
       ("end_condition", PyStr "fixed-free");
       ("is_long_column", PyBool true) ].
Proof.
  apply (euler_buckling_load_formulas (libm := libm_products)
           steel_a36 3 0.1 0.2 "fixed-free" 2.0 _ Formula.K_fixed_free).
  compute64.
Defined.

(** C8.  For a tag that is not one of the four, [euler_buckling_load]
    does what it does for pinned-pinned on the same numbers, with the
    tag echoed in [end_condition]: it returns the same numeric entries
    when that call returns; it returns the dict [d] exactly when the
    formulas are defined with [K = 1.0] and [d] holds their values; and
    it raises an exception exactly when the pinned-pinned call raises
    it, so the tag is the cause of no error. *)
Theorem unrecognized_end_condition {libm : Libm}
    (m : Material) (L w h : float) (tag : string) :
  ~ Formula.recognized tag ->
  ColumnAnalyzer.euler_buckling_load (ColumnAnalyzer.init m) L w h tag =
    fmap (fun d => set d "end_condition" (PyStr tag))
         (ColumnAnalyzer.euler_buckling_load
            (ColumnAnalyzer.init m) L w h "pinned-pinned") /\
  (forall d : dict pyval,
     ColumnAnalyzer.euler_buckling_load (ColumnAnalyzer.init m) L w h tag = Ok d <->
     Formula.euler_buckling_load m L w h 1.0 tag d) /\
  (forall e : exn,
     ColumnAnalyzer.euler_buckling_load (ColumnAnalyzer.init m) L w h tag = Raise e <->
     ColumnAnalyzer.euler_buckling_load
       (ColumnAnalyzer.init m) L w h "pinned-pinned" = Raise e).
Proof.
  intros Htag.
  assert (HK : get ColumnAnalyzer.K_factors tag 1.0 = 1.0)
    by (unfold get; rewrite (K_factors64_unrecognized tag Htag); reflexivity).
  assert (Heq :
    ColumnAnalyzer.euler_buckling_load (ColumnAnalyzer.init m) L w h tag =
    fmap (fun d => set d "end_condition" (PyStr tag))
         (ColumnAnalyzer.euler_buckling_load
            (ColumnAnalyzer.init m) L w h "pinned-pinned")); [ | split; [ exact Heq | split ] ].
  - unfold ColumnAnalyzer.euler_buckling_load. rewrite HK.
    change (get ColumnAnalyzer.K_factors "pinned-pinned" 1.0) with 1.0.
    unfold fmap.
    repeat
      match goal with
      | |- bind ?c _ = bind (bind ?c _) _ =>
          destruct c; cbn [bind]; [ | reflexivity ]
      end.
    reflexivity.
  - intros d. pose proof (euler_buckling_load_run m L w h tag d) as H.
    rewrite HK in H. exact H.
  - intros e. rewrite Heq.
    destruct (ColumnAnalyzer.euler_buckling_load
                (ColumnAnalyzer.init m) L w h "pinned-pinned");
      cbn [fmap bind ret]; split; intros H; (discriminate H || exact H).
Qed.

Lemma unrecognized_end_condition_witness :
  ColumnAnalyzer.euler_buckling_load (libm := libm_products)
    (ColumnAnalyzer.init steel_a36) 3 0.1 0.1 "bogus" =
  Ok [ ("critical_load_n", PyFloat 1827704.518720252);
       ("critical_load_kn", PyFloat 1827.704518720252);
       ("slenderness_ratio", PyFloat 103.92304845413263);
       ("end_condition", PyStr "bogus");
       ("is_long_column", PyBool false) ].
Proof.
  assert (Htag : ~ Formula.recognized "bogus")
    by (intros [K HK]; inversion HK).
  apply (proj1 (proj2 (unrecognized_end_condition (libm := libm_products)
                         steel_a36 3 0.1 0.1 "bogus" Htag))).
  compute64.
Defined.

(** ** The worked scenarios on binary64 *)

(** The steel beam of the specification,
    [simply_supported_point_load(2.0, 1000.0, 1.0, 0.05, 0.1)]: the
    deflection is 0.2 mm to rounding, the safety factor 41.67. *)
Example steel_beam_scenario_binary64 :
  BeamAnalyzer.simply_supported_point_load (libm := libm_products)
    (BeamAnalyzer.init steel_a36) 2 1000 1 0.05 0.1 =
  Ok {| max_deflection := 0.19999999999999996;
        max_stress := 5.999999999999998;
        max_moment := 500;
        max_shear := 500;
        safety_factor := 41.66666666666668;
        weight := 78.50000000000001;
        cost := 117.75000000000003 |}.
Proof. vm_compute. reflexivity. Qed.

(** The steel column of the specification,
    [euler_buckling_load(3.0, 0.1, 0.1, "pinned-pinned")]: the critical
    load is 1827.7 kN to rounding. *)
Example steel_column_scenario_binary64 :
  ColumnAnalyzer.euler_buckling_load (libm := libm_products)
    (ColumnAnalyzer.init steel_a36) 3 0.1 0.1 "pinned-pinned" =
  Ok [ ("critical_load_n", PyFloat 1827704.518720252);
       ("critical_load_kn", PyFloat 1827.704518720252);
       ("slenderness_ratio", PyFloat 103.92304845413263);
       ("end_condition", PyStr "pinned-pinned");
       ("is_long_column", PyBool false) ].
Proof. vm_compute. reflexivity. Qed.

(** ** Runs at the edges of binary64 *)

(** Positive geometry does not secure a result.  With a height of 1e-120
    the cube underflows, the second moment of area is zero and the
    deflection at line 187 raises; with a height of 1e103 the cube
    overflows and [**] raises at line 180. *)
Example cantilever_beam_tiny_and_huge_height :
  BeamAnalyzer.cantilever_beam (libm := libm_products)
    (BeamAnalyzer.init steel_a36) 1 1000 0.05 1e-120 =
  Raise (ZeroDivisionError 187) /\
  BeamAnalyzer.cantilever_beam (libm := libm_products)
    (BeamAnalyzer.init steel_a36) 1 1000 0.05 1e103 =
  Raise (OverflowError 180).
Proof. split; vm_compute; reflexivity. Qed.

(** A safety factor that rounds to the threshold is safe:
    [cantilever_beam(3.0, 578703.70370370371, 0.25, 0.5)] computes 1.5. *)
Example safety_factor_at_threshold :
  exists r,
    BeamAnalyzer.cantilever_beam (libm := libm_products)
      (BeamAnalyzer.init steel_a36) 3 578703.70370370371 0.25 0.5 = Ok r /\
    safety_factor r = 1.5 /\
    is_safe r None = true.
Proof. eexists. split; [ vm_compute; reflexivity | split; vm_compute; reflexivity ]. Qed.

(** A load at the right support that overflows the moment,
    [simply_supported_point_load(2.0, 1e308, 2.0, 0.05, 0.1)]: infinity
    times zero is NaN, no divisor is zero, and a record comes back. *)
Example point_load_overflowing_moment :
  BeamAnalyzer.simply_supported_point_load (libm := libm_products)
    (BeamAnalyzer.init steel_a36) 2 1e308 2 0.05 0.1 =
  Ok {| max_deflection := nan;
        max_stress := nan;
        max_moment := nan;
        max_shear := infinity;
        safety_factor := nan;
        weight := 78.50000000000001;
        cost := 117.75000000000003 |}.
Proof. vm_compute. reflexivity. Qed.

(** A slenderness ratio that rounds to 120 is not long; a section of
    side 1e-110 has a radius of gyration that underflows to zero, and the
    slenderness at line 317 raises, for any tag. *)
Example euler_buckling_load_edges :
  ColumnAnalyzer.euler_buckling_load (libm := libm_products)
    (ColumnAnalyzer.init steel_a36) 15.155444566227677 0.4375 0.5 "pinned-pinned" =
  Ok [ ("critical_load_n", PyFloat 29985777.260254122);
       ("critical_load_kn", PyFloat 29985.777260254123);
       ("slenderness_ratio", PyFloat 120);
       ("end_condition", PyStr "pinned-pinned");
       ("is_long_column", PyBool false) ] /\
  ColumnAnalyzer.euler_buckling_load (libm := libm_products)
    (ColumnAnalyzer.init steel_a36) 1 1e-110 1e-110 "bogus" =
  Raise (ZeroDivisionError 317).
Proof. split; vm_compute; reflexivity. Qed.

(** * Further properties of the engine on binary64 *)

(** ** The exceptions of the operations *)

(** One step of a chain: a power, a square root or a division either
    returns or raises; a division by a literal, or by a divisor met
    before, returns. *)
Ltac step64 :=
  match goal with
  | |- context [bind (pow ?l ?x ?n) _] =>
      let Hp := fresh "Hp" in destruct (pow l x n) eqn:Hp
  | |- context [bind (math_sqrt ?l ?x) _] =>
      let Hs := fresh "Hs" in destruct (math_sqrt l x) eqn:Hs
  | |- context [bind (truediv ?l ?x ?y) _] =>
      first
        [ rewrite (truediv64_Ok l x y) by (reflexivity || assumption)
        | let Hz := fresh "Hz" in unfold truediv at 1; destruct (y =? 0) eqn:Hz ]
  | |- context [bind (if ?c then _ else _) _] =>
      let Hc := fresh "Hc" in destruct c eqn:Hc
  end;
  cbn [bind ret].

(** Settles which exception a finished chain raised. *)
Ltac contradict64 :=
  match goal with
  | H : false = true |- _ => discriminate H
  | H : true = false |- _ => discriminate H
  | H1 : ?c = true, H2 : ?c = false |- _ => rewrite H1 in H2; discriminate H2
  end.

Ltac settle64 :=
  first
    [ contradict64
    | split;
      [ intros H; first [ discriminate H | injection H as <- ];
        first [ reflexivity | split; reflexivity | contradict64 ]
      | intros H;
        repeat match goal with H : _ /\ _ |- _ => destruct H end;
        first [ contradict64 | subst; reflexivity ] ] ].

Section Exceptions64.

Context {libm : Libm}.
Variable m : Material.

(** X2.  The exceptions of [cantilever_beam], in the order the chain
    meets them: those of the two powers, then [ZeroDivisionError] at the
    deflection, at the stress and at the safety factor; the divisions by
    a literal never raise. *)
Theorem cantilever_beam_raises (L P w h : float) (e : exn) :
  BeamAnalyzer.cantilever_beam (BeamAnalyzer.init m) L P w h = Raise e <->
  match pow 180 h 3 with
  | Raise e' => e = e'
  | Ok h3 =>
      match pow 187 L 3 with
      | Raise e' => e = e'
      | Ok L3 =>
          let I := Formula.second_moment w h3 in
          let E := Formula.modulus_pa m in
          if 3 * E * I =? 0 then e = ZeroDivisionError 187
          else if I =? 0 then e = ZeroDivisionError 192
          else (Formula.bending_stress_mpa (P * L) h I =? 0) = true /\
               e = ZeroDivisionError 199
      end
  end.
Proof.
  unfold BeamAnalyzer.cantilever_beam; cbn [BeamAnalyzer.material].
  unfold Formula.second_moment, Formula.modulus_pa, Formula.bending_stress_mpa.
  cbv zeta.
  repeat step64; settle64.
Qed.

(** X3.  The exceptions of [distributed_load_beam], in the order the
    chain meets them: those of the three powers, then
    [ZeroDivisionError] at the deflection, at the stress and at the
    safety factor; the divisions by a literal never raise. *)
Theorem distributed_load_beam_raises (L q w h : float) (e : exn) :
  BeamAnalyzer.distributed_load_beam (BeamAnalyzer.init m) L q w h = Raise e <->
  match pow 233 h 3 with
  | Raise e' => e = e'
  | Ok h3 =>
      match pow 239 L 2 with
      | Raise e' => e = e'
      | Ok L2 =>
          match pow 243 L 4 with
          | Raise e' => e = e'
          | Ok L4 =>
              let I := Formula.second_moment w h3 in
              let E := Formula.modulus_pa m in
              if 384 * E * I =? 0 then e = ZeroDivisionError 243
              else if I =? 0 then e = ZeroDivisionError 248
              else (Formula.bending_stress_mpa (q * L2 / 8) h I =? 0) = true /\
                   e = ZeroDivisionError 255
          end
      end
  end.
Proof.
  unfold BeamAnalyzer.distributed_load_beam; cbn [BeamAnalyzer.material].
  unfold Formula.second_moment, Formula.modulus_pa, Formula.bending_stress_mpa.
  cbv zeta.
  repeat step64; settle64.
Qed.

(** X1.  The exceptions of [simply_supported_point_load], in the order
    the chain meets them: those of [height**3], [ZeroDivisionError] at
    the moment for a zero length, the exceptions of the powers and of
    the division of the deflection branch taken, then
    [ZeroDivisionError] at the stress and at the safety factor; the
    divisions by a literal and the two shear divisions never raise. *)
Theorem simply_supported_point_load_raises (L P a w h : float) (e : exn) :
  BeamAnalyzer.simply_supported_point_load (BeamAnalyzer.init m) L P a w h = Raise e <->
  match pow 117 h 3 with
  | Raise e' => e = e'
  | Ok h3 =>
      let I := Formula.second_moment w h3 in
      let E := Formula.modulus_pa m in
      let b := L - a in
      let rest :=
        if I =? 0 then e = ZeroDivisionError 137
        else (Formula.bending_stress_mpa (P * a * b / L) h I =? 0) = true /\
             e = ZeroDivisionError 144 in
      if L =? 0 then e = ZeroDivisionError 122
      else if abs (a - b) <? 0.01 then
        match pow 127 L 3 with
        | Raise e' => e = e'
        | Ok L3 =>
            if 48 * E * I =? 0 then e = ZeroDivisionError 127 else rest
        end
      else
        match pow 130 a 2 with
        | Raise e' => e = e'
        | Ok a2 =>
            match pow 130 b 2 with
            | Raise e' => e = e'
            | Ok b2 =>
                if 3 * E * I * L =? 0 then e = ZeroDivisionError 130 else rest
            end
        end
  end.
Proof.
  unfold BeamAnalyzer.simply_supported_point_load; cbn [BeamAnalyzer.material].
  unfold Formula.second_moment, Formula.modulus_pa, Formula.bending_stress_mpa, lt.
  cbv zeta.
  repeat step64; settle64.
Qed.

End Exceptions64.

(** X10.  The exceptions of [euler_buckling_load], in the order the chain
    meets them, for any tag: those of the four powers, then
    [ZeroDivisionError] at the critical load and at the area, the
    exception of [math.sqrt], and [ZeroDivisionError] at the
    slenderness; the divisions by a literal never raise. *)
Theorem euler_buckling_load_raises {libm : Libm}
    (m : Material) (L w h : float) (tag : string) (e : exn) :
  ColumnAnalyzer.euler_buckling_load (ColumnAnalyzer.init m) L w h tag = Raise e <->
  let K := get ColumnAnalyzer.K_factors tag 1.0 in
  match pow 303 h 3 with
  | Raise e' => e = e'
  | Ok h3 =>
      match pow 304 w 3 with
      | Raise e' => e = e'
      | Ok w3 =>
          match pow 312 math_pi 2 with
          | Raise e' => e = e'
          | Ok pi2 =>
              match pow 312 (K * L) 2 with
              | Raise e' => e = e'
              | Ok L_e2 =>
                  let I_min :=
                    min (Formula.second_moment w h3) (Formula.second_moment h w3) in
                  if L_e2 =? 0 then e = ZeroDivisionError 312
                  else if w * h =? 0 then e = ZeroDivisionError 316
                  else
                    match math_sqrt 316 (I_min / (w * h)) with
                    | Raise e' => e = e'
                    | Ok r => (r =? 0) = true /\ e = ZeroDivisionError 317
                    end
              end
          end
      end
  end.
Proof.
  unfold ColumnAnalyzer.euler_buckling_load; cbn [ColumnAnalyzer.material].
  unfold Formula.second_moment. cbv zeta.
  generalize (get ColumnAnalyzer.K_factors tag 1.0). intros K.
  repeat step64; settle64.
Qed.

(** ** Weight and cost *)

(** X23.  The weight and the cost of every returned record are the products
    the source writes, rounded after each multiplication, whatever the
    load. *)
Theorem weight_cost_binary64 {libm : Libm}
    (m : Material) (L P a w h : float) (r : BeamAnalysisResult) :
  BeamAnalyzer.simply_supported_point_load (BeamAnalyzer.init m) L P a w h = Ok r \/
  BeamAnalyzer.cantilever_beam (BeamAnalyzer.init m) L P w h = Ok r \/
  BeamAnalyzer.distributed_load_beam (BeamAnalyzer.init m) L P w h = Ok r ->
  weight r = L * w * h * density m /\
  cost r = weight r * cost_per_kg m.
Proof.
  intros [H | [H | H]].
  - apply simply_supported_point_load_run in H.
    destruct H as (M & d & s & V & _ & _ & ->). split; reflexivity.
  - apply cantilever_beam_run in H.
    destruct H as (M & d & s & V & _ & _ & ->). split; reflexivity.
  - apply distributed_load_beam_run in H.
    destruct H as (M & d & s & V & _ & _ & ->). split; reflexivity.
Qed.

Lemma weight_cost_binary64_witness :
  exists r,
    BeamAnalyzer.distributed_load_beam (libm := libm_unreached)
      (BeamAnalyzer.init steel_a36) 1 1000 0.05 1 = Ok r /\
    weight r = 392.5 /\
    cost r = 588.75.
Proof.
  eexists. split; [ vm_compute; reflexivity | ].
  exact (weight_cost_binary64 (libm := libm_unreached)
           steel_a36 1 1000 0 0.05 1 _ (or_intror (or_intror eq_refl))).
Defined.

(** ** A safety factor that is not a number *)

(** X24.  [is_safe] is false on a NaN safety factor, for every threshold and
    for the default one. *)
Theorem nan_safety_factor_is_unsafe (r : BeamAnalysisResult) (t : option float) :
  is_nan (safety_factor r) = true -> is_safe r t = false.
Proof.
  intros H. unfold is_safe, ge. apply leb_nan_r, H.
Qed.

Lemma nan_safety_factor_is_unsafe_witness :
  exists r,
    BeamAnalyzer.cantilever_beam (libm := libm_unreached)
      (BeamAnalyzer.init steel_a36) 1 0 1 infinity = Ok r /\
    is_safe r None = false /\
    is_safe r (Some 0) = false.
Proof.
  eexists. split; [ vm_compute; reflexivity | ].
  split; apply nan_safety_factor_is_unsafe; reflexivity.
Defined.

End OnBinary64.

(** * The engine over the reals *)

(** ** Arithmetic of the embedding *)

Lemma truediv_Ok (l : nat) (x y : R) : y <> 0 -> truediv l x y = Ok (x / y).
Proof.
  intros Hy. unfold truediv. destruct (Req_dec_T y 0) as [E | _]; [contradiction | reflexivity].
Qed.

Lemma math_sqrt_Ok (l : nat) (x : R) : 0 <= x -> math_sqrt l x = Ok (sqrt x).
Proof.
  intros Hx. unfold math_sqrt. destruct (Rlt_dec x 0) as [N | _]; [lra | reflexivity].
Qed.

Lemma if_Ok {A : Type} (c : bool) (x y : A) :
  (if c then Ok x else Ok y) = Ok (if c then x else y).
Proof. destruct c; reflexivity. Qed.

Lemma ge_true (x y : R) : ge x y = true <-> x >= y.
Proof. unfold ge. destruct (Rge_dec x y); split; intros; try discriminate; auto; lra. Qed.

Lemma max_Rmax (x y : R) : max x y = Rmax x y.
Proof.
  unfold max, Rmax. destruct (Rgt_dec y x), (Rle_dec x y); lra.
Qed.

Lemma min_Rmin (x y : R) : min x y = Rmin x y.
Proof.
  unfold min, Rmin. destruct (Rlt_dec y x), (Rle_dec x y); lra.
Qed.

(** Non-zero products, quotients and powers, from non-zero factors. *)
Ltac nonzero :=
  first
    [ assumption
    | lazymatch goal with
      | |- ?x * ?y <> 0 => apply Rmult_integral_contrapositive_currified; nonzero
      | |- ?x / ?y <> 0 => change (x * / y <> 0); nonzero
      | |- / ?x <> 0 => apply Rinv_neq_0_compat; nonzero
      | |- ?x ^ ?n <> 0 => apply pow_nonzero; nonzero
      | |- _ => lra
      end ].

(** Run the next division of a chain whose divisor is visibly non-zero. *)
Ltac run_div :=
  repeat (first [ rewrite truediv_Ok by nonzero | rewrite if_Ok ]; cbn [bind ret]).

(** ** Evaluation of the beam operations *)

Section BeamEvaluation.

Variable m : Material.
Variables L w h : R.
Hypothesis L_pos : 0 < L.
Hypothesis w_pos : 0 < w.
Hypothesis h_pos : 0 < h.

Let I := Formula.second_moment w h.
Let E := Formula.modulus_pa m.

Lemma second_moment_pos : 0 < Formula.second_moment w h.
Proof.
  unfold Formula.second_moment.
  assert (0 < h ^ 3) by (apply pow_lt; assumption).
  assert (0 < w * h ^ 3) by (apply Rmult_lt_0_compat; assumption).
  lra.
Qed.

Lemma simply_supported_point_load_Ok (P a : R) :
  youngs_modulus m <> 0 -> P * a * (L - a) <> 0 ->
  BeamAnalyzer.simply_supported_point_load (BeamAnalyzer.init m) L P a w h =
  Ok {| max_deflection := Formula.point_load_deflection P a L E I * 1000;
        max_stress := Formula.bending_stress_mpa (P * a * (L - a) / L) h I;
        max_moment := P * a * (L - a) / L;
        max_shear := max (P * (L - a) / L) (P * a / L);
        safety_factor :=
          yield_strength m / Formula.bending_stress_mpa (P * a * (L - a) / L) h I;
        weight := L * w * h * density m;
        cost := L * w * h * density m * cost_per_kg m |}.
Proof.
  intros HE HM.
  pose proof second_moment_pos as HI. fold I in HI.
  unfold BeamAnalyzer.simply_supported_point_load; cbn [BeamAnalyzer.material].
  unfold I, E, Formula.second_moment, Formula.modulus_pa in *.
  run_div.
  unfold Formula.point_load_deflection, Formula.bending_stress_mpa, lt, abs.
  destruct (Rlt_dec _ _); reflexivity.
Qed.



End BeamEvaluation.


Section WeightAndCost.

Variable m : Material.
Variable r : BeamAnalysisResult.




End WeightAndCost.

(** The standard scenario of the specification: a 2 m steel beam of section
    0.05 m by 0.1 m carrying 1000 N at midspan. *)
Lemma steel_beam_scenario :
  BeamAnalyzer.simply_supported_point_load
    (BeamAnalyzer.init steel_a36) 2 1000 1 0.05 0.1 =
  Ok {| max_deflection := 0.2;
        max_stress := 6;
        max_moment := 500;
        max_shear := 500;
        safety_factor := 125 / 3;
        weight := 78.5;
        cost := 117.75 |}.
Proof.
  rewrite simply_supported_point_load_Ok; cbn [youngs_modulus steel_a36]; try lra.
  f_equal.
  unfold Formula.point_load_deflection, Formula.bending_stress_mpa,
    Formula.second_moment, Formula.modulus_pa.
  cbn [youngs_modulus yield_strength density cost_per_kg steel_a36].
  rewrite max_Rmax.
  replace (1000 * (2 - 1) / 2) with 500 by lra.
  replace (1000 * 1 / 2) with 500 by lra.
  rewrite Rmax_left by lra.
  destruct (Rlt_dec _ _) as [_ | N].
  - f_equal; lra.
  - exfalso. apply N. replace (1 - (2 - 1)) with 0 by lra. rewrite Rabs_R0. lra.
Qed.

(** ** Evaluation of the column operation *)

Lemma K_factors_pos (tag : string) : 0 < get ColumnAnalyzer.K_factors tag 1.0.
Proof.
  unfold get, ColumnAnalyzer.K_factors, lookup.
  repeat
    match goal with
    | |- context [String.eqb ?k tag] => destruct (String.eqb k tag); [ lra | ]
    end.
  lra.
Qed.

Section ColumnEvaluation.

Variable m : Material.
Variables L w h : R.
Hypothesis L_pos : 0 < L.
Hypothesis w_pos : 0 < w.
Hypothesis h_pos : 0 < h.

Lemma I_min_pos : 0 < Formula.I_min w h.
Proof.
  unfold Formula.I_min.
  assert (0 < h ^ 3) by (apply pow_lt; assumption).
  assert (0 < w ^ 3) by (apply pow_lt; assumption).
  assert (0 < w * h ^ 3) by (apply Rmult_lt_0_compat; assumption).
  assert (0 < h * w ^ 3) by (apply Rmult_lt_0_compat; assumption).
  apply Rmin_glb_lt; lra.
Qed.

Lemma gyration_pos : 0 < sqrt (Formula.I_min w h / (w * h)).
Proof.
  apply sqrt_lt_R0. apply Rdiv_lt_0_compat; [ apply I_min_pos | ].
  apply Rmult_lt_0_compat; assumption.
Qed.

Lemma euler_buckling_load_Ok (tag : string) :
  let K := get ColumnAnalyzer.K_factors tag 1.0 in
  let L_e := K * L in
  let P_cr := PI ^ 2 * (youngs_modulus m * 1e9) * Formula.I_min w h / L_e ^ 2 in
  let slenderness := L_e / sqrt (Formula.I_min w h / (w * h)) in
  ColumnAnalyzer.euler_buckling_load (ColumnAnalyzer.init m) L w h tag =
  Ok [ ("critical_load_n", PyFloat P_cr);
       ("critical_load_kn", PyFloat (P_cr / 1000));
       ("slenderness_ratio", PyFloat slenderness);
       ("end_condition", PyStr tag);
       ("is_long_column", PyBool (gt slenderness 120)) ].
Proof.
  intros K L_e P_cr slenderness. subst K L_e P_cr slenderness.
  pose proof I_min_pos as HI. pose proof gyration_pos as Hr.
  pose proof (K_factors_pos tag) as HK.
  unfold ColumnAnalyzer.euler_buckling_load; cbn [ColumnAnalyzer.material].
  unfold math_pi. run_div.
  rewrite !min_Rmin. fold (Formula.I_min w h).
  rewrite math_sqrt_Ok; cbn [bind ret].
  - run_div. reflexivity.
  - apply Rlt_le, Rdiv_lt_0_compat; [ assumption | ].
    apply Rmult_lt_0_compat; assumption.
Qed.

End ColumnEvaluation.



(** ** The steel beam scenario *)

Lemma approx_bounds (x v u : R) :
  Formula.approx x v u <-> v - u / 2 < x < v + u / 2.
Proof.
  unfold Formula.approx. split.
  - intros H. apply Rabs_def2 in H. lra.
  - intros H. apply Rabs_def1; lra.
Qed.

(** C6, as the specification states it: with the deflection read as
    1.2 mm the scenario does not hold, the computed deflection being
    0.2 mm. *)
Lemma steel_beam_deflection_not_1_2 : ~ Scenario.steel_beam 1.2.
Proof.
  intros (_ & r & Hr & _ & Hd & _).
  rewrite steel_beam_scenario in Hr. injection Hr as <-.
  cbn [max_deflection] in Hd. apply approx_bounds in Hd. lra.
Qed.

(** C6, amended.  Steel A36 ([E = 200 GPa], yield 250 MPa, density
    7850 kg/m3, 1.50 USD/kg), simply supported, [L = 2 m], [P = 1000 N] at
    the centre, section 0.05 m by 0.1 m: [I = 4.1667e-6 m^4],
    [max_moment = 500 N.m], [max_deflection] about 0.2 mm, [max_stress]
    about 6.0 MPa, [safety_factor] about 41.7, [weight] about 78.5 kg,
    [cost] about 117.75 USD, and [is_safe()] is true. *)
Theorem steel_beam_scenario_holds : Scenario.steel_beam 0.2.
Proof.
  split.
  - apply approx_bounds. unfold Formula.second_moment. lra.
  - eexists. split; [ exact steel_beam_scenario | ].
    cbn [max_moment max_deflection max_stress safety_factor weight cost].
    repeat split; try (apply approx_bounds; lra).
    unfold is_safe; cbn [safety_factor]. apply ge_true. lra.
Qed.

(** ** The steel column scenario *)

Lemma PI_bounds : 3.14159 < PI < 3.1416.
Proof.
  pose proof (PI_2_3_7_ineq 2) as [Hlo Hhi].
  unfold sum_f_R0, tg_alt, PI_2_3_7_tg, Ratan_seq in Hlo, Hhi.
  simpl in Hlo, Hhi.
  split; lra.
Qed.

Lemma sqrt_bounds (x lo hi : R) :
  0 <= lo -> 0 <= hi -> lo * lo < x < hi * hi -> lo < sqrt x < hi.
Proof.
  intros Hlo Hhi [H1 H2].
  assert (Hx : 0 <= x) by nra.
  pose proof (sqrt_pos x) as Hs.
  pose proof (sqrt_sqrt x Hx) as Hss.
  split; nra.
Qed.

Lemma div_bounds (x y lo hi : R) :
  0 < y -> lo * y < x < hi * y -> lo < x / y < hi.
Proof.
  intros Hy [H1 H2].
  assert (Hxy : x / y * y = x) by (field; lra).
  split; nra.
Qed.

Lemma steel_column_scenario :
  exists P_cr s : R,
    ColumnAnalyzer.euler_buckling_load
      (ColumnAnalyzer.init steel_a36) 3 0.1 0.1 "pinned-pinned" =
    Ok [ ("critical_load_n", PyFloat P_cr);
         ("critical_load_kn", PyFloat (P_cr / 1000));
         ("slenderness_ratio", PyFloat s);
         ("end_condition", PyStr "pinned-pinned");
         ("is_long_column", PyBool false) ] /\
    1827700 < P_cr < 1827715 /\
    103.92 < s < 103.93.
Proof.
  assert (HI : Formula.I_min 0.1 0.1 = 1 / 120000).
  { unfold Formula.I_min. rewrite Rmin_left by lra. lra. }
  assert (HK : get ColumnAnalyzer.K_factors "pinned-pinned" 1.0 = 1) by (cbn; lra).
  assert (Hr : 0.028867 < sqrt (1 / 1200) < 0.028868) by (apply sqrt_bounds; lra).
  assert (Hs : 103.92 < 1 * 3 / sqrt (1 / 1200) < 103.93).
  { destruct Hr as [Hr1 Hr2]. apply div_bounds; lra. }
  eexists. eexists. split.
  - rewrite euler_buckling_load_Ok by lra.
    rewrite HI, HK.
    replace (1 / 120000 / (0.1 * 0.1)) with (1 / 1200) by lra.
    replace (gt (1 * 3 / sqrt (1 / 1200)) 120) with false; [ reflexivity | ].
    symmetry. unfold gt. destruct (Rgt_dec _ _); [ lra | reflexivity ].
  - split; [ | exact Hs ].
    cbn [youngs_modulus steel_a36].
    pose proof PI_bounds as [Hp1 Hp2].
    assert (Hsq : 3.14159 * 3.14159 < PI ^ 2 < 3.1416 * 3.1416) by nra.
    destruct Hsq as [Hq1 Hq2].
    replace (PI ^ 2 * (200 * 1e9) * (1 / 120000) / (1 * 3) ^ 2)
      with (PI ^ 2 * (5000000 / 27)) by (field_simplify; lra).
    split; lra.
Qed.

(** C7, as the specification states it: with the critical load read as
    548.3 kN the scenario does not hold, the computed critical load being
    about 1827.7 kN. *)
Lemma steel_column_critical_load_not_548_3 : ~ Scenario.steel_column 548.3.
Proof.
  intros (_ & d & Hd & (x & Hx & Hax) & _).
  destruct steel_column_scenario as (P_cr & s & Hrun & HP & _).
  rewrite Hrun in Hd. injection Hd as <-.
  cbn in Hx. injection Hx as <-.
  apply approx_bounds in Hax. lra.
Qed.

(** C7, amended.  Steel A36 column, [L = 3 m], square section of side
    0.1 m, pinned-pinned: [I_min = 8.333e-6 m^4], [critical_load_kn] about
    1827.7 kN, [slenderness_ratio] about 103.9, and [is_long_column] is
    false. *)
Theorem steel_column_scenario_holds : Scenario.steel_column 1827.7.
Proof.
  split.
  - apply approx_bounds. unfold Formula.I_min. rewrite Rmin_left by lra. lra.
  - destruct steel_column_scenario as (P_cr & s & Hrun & HP & Hs).
    eexists. split; [ exact Hrun | ].
    split; [ | split ].
    + eexists. split; [ reflexivity | ]. apply approx_bounds. lra.
    + eexists. split; [ reflexivity | ]. apply approx_bounds. lra.
    + reflexivity.
Qed.

(** ** Symmetry of the column section *)


(** * The material database and selector *)

(** ** Searching the database *)

Lemma filter_all {A : Type} (l : list A) : filter (fun _ => true) l = l.
Proof. induction l as [| x l IH]; [ reflexivity | cbn; rewrite IH; reflexivity ]. Qed.

Lemma filter_fuse {A : Type} (p q : A -> bool) (l : list A) :
  filter p (filter q l) = filter (fun x => q x && p x) l.
Proof.
  induction l as [| x l IH]; [ reflexivity | ].
  cbn. destruct (q x); cbn; [ destruct (p x) | ]; rewrite IH; reflexivity.
Qed.

Lemma index_level (lineno : nat) (tag : string) :
  PyBuiltins.index lineno Materials.resistance_levels tag =
  match Materials.level tag with
  | Some i => Ok i
  | None => Raise (ValueError lineno)
  end.
Proof.
  unfold Materials.level, Materials.resistance_levels, PyBuiltins.index.
  repeat (destruct (String.eqb _ tag); [ reflexivity | ]). reflexivity.
Qed.

Lemma comprehension_filter {A : Type} (p : A -> result bool) (q : A -> bool) (l : list A) :
  Forall (fun x => p x = Ok (q x)) l ->
  PyBuiltins.comprehension p l = Ok (filter q l).
Proof.
  induction 1 as [| x l Hx _ IH]; [ reflexivity | ].
  cbn. rewrite Hx, IH. cbn. destruct (q x); reflexivity.
Qed.

Lemma comprehension_In {A : Type} (p : A -> result bool) (l rs : list A) :
  PyBuiltins.comprehension p l = Ok rs ->
  forall x, In x rs <-> In x l /\ p x = Ok true.
Proof.
  revert rs. induction l as [| y l IH]; intros rs H x.
  - injection H as <-. cbn. tauto.
  - cbn in H. destruct (p y) as [keep | e] eqn:Hy; cbn in H; [ | discriminate H ].
    destruct (PyBuiltins.comprehension p l) as [rest | e] eqn:Hrest; cbn in H;
      [ | discriminate H ].
    injection H as <-. specialize (IH rest eq_refl x).
    destruct keep; cbn; rewrite IH; split.
    + intros [-> | [Hin Hp]]; [ tauto | tauto ].
    + intros [[-> | Hin] Hp]; [ left; reflexivity | right; tauto ].
    + intros [Hin Hp]; tauto.
    + intros [[-> | Hin] Hp]; [ congruence | tauto ].
Qed.

Lemma comprehension_ext {A : Type} (p p' : A -> result bool) (l : list A) :
  (forall x, p x = p' x) ->
  PyBuiltins.comprehension p l = PyBuiltins.comprehension p' l.
Proof.
  intros H. induction l as [| x l IH]; [ reflexivity | ].
  cbn. rewrite H, IH. reflexivity.
Qed.

(** The four threshold filters of [search], fused. *)
Lemma search_thresholds (db : Materials.MaterialDatabase.t)
    (s c t : option R) (cat : option Materials.MaterialCategory)
    (corr : option string) :
  Materials.MaterialDatabase.search db s c t cat corr =
  let results :=
    filter (Materials.meets s c t cat None) (Materials.MaterialDatabase.materials db) in
  match corr with
  | Some tag =>
      match Materials.level tag with
      | Some i =>
          PyBuiltins.comprehension
            (fun m =>
               match Materials.level (Materials.corrosion_resistance m) with
               | Some j => Ok (Nat.leb i j)
               | None => Raise (ValueError 276)
               end)
            results
      | None => Raise (ValueError 273)
      end
  | None => Ok results
  end.
Proof.
  unfold Materials.MaterialDatabase.search.
  set (l := Materials.MaterialDatabase.materials db).
  assert (Hfused :
    match cat with
    | Some category =>
        filter (fun m => Materials.MaterialCategory_eqb (Materials.category m) category)
    | None => fun l => l
    end
      (match t with
       | Some min_temp => filter (fun m => ge (Materials.max_service_temp m) min_temp)
       | None => fun l => l
       end
         (match c with
          | Some max_cost =>
              filter (fun m => PyBuiltins.le (Materials.cost_per_kg m) max_cost)
          | None => fun l => l
          end
            (match s with
             | Some min_strength =>
                 filter (fun m => ge (Materials.yield_strength m) min_strength)
             | None => fun l => l
             end l))) =
    filter (Materials.meets s c t cat None) l).
  { unfold Materials.meets, Materials.resists.
    rewrite <- (filter_all l) at 1.
    destruct s, c, t, cat; cbn [Materials.at_least Materials.at_most Materials.in_category];
      rewrite ?filter_fuse; apply filter_ext; intros x;
      rewrite ?andb_assoc, ?andb_true_r, ?andb_true_l; reflexivity. }
  cbv zeta.
  destruct corr as [tag | ].
  - rewrite index_level. destruct (Materials.level tag) as [i | ]; [ | reflexivity ].
    cbn [bind].
    replace (match cat with
             | Some category => _
             | None => _
             end) with (filter (Materials.meets s c t cat None) l).
    + apply comprehension_ext. intros x.
      rewrite index_level. destruct (Materials.level _); reflexivity.
    + rewrite <- Hfused. destruct s, c, t, cat; reflexivity.
  - unfold ret. f_equal. rewrite <- Hfused. destruct s, c, t, cat; reflexivity.
Qed.

Lemma level_In (tag : string) :
  Materials.level tag <> None <-> In tag Materials.resistance_levels.
Proof.
  unfold Materials.level, Materials.resistance_levels, PyBuiltins.index. cbn [In].
  destruct (String.eqb_spec "poor" tag); [ split; [ tauto | discriminate ] | ].
  destruct (String.eqb_spec "moderate" tag); [ split; [ tauto | discriminate ] | ].
  destruct (String.eqb_spec "good" tag); [ split; [ tauto | discriminate ] | ].
  destruct (String.eqb_spec "excellent" tag); [ split; [ tauto | discriminate ] | ].
  cbn. split; [ congruence | tauto ].
Qed.

Lemma meets_resists (s c t : option R) (cat : option Materials.MaterialCategory)
    (lv : option nat) (m : Materials.MaterialProperties) :
  Materials.meets s c t cat lv m =
  Materials.meets s c t cat None m && Materials.resists lv m.
Proof.
  unfold Materials.meets. cbn [Materials.resists]. rewrite andb_true_r. reflexivity.
Qed.

Lemma init_well_formed : Materials.well_formed Materials.MaterialDatabase.init.
Proof.
  unfold Materials.well_formed. cbn.
  repeat (constructor; [ cbn; discriminate | ]). constructor.
Qed.

Lemma search_known_level (db : Materials.MaterialDatabase.t)
    (s c t : option R) (cat : option Materials.MaterialCategory)
    (tag : string) (i : nat) :
  Materials.well_formed db -> Materials.level tag = Some i ->
  Materials.MaterialDatabase.search db s c t cat (Some tag) =
  Ok (filter (Materials.meets s c t cat (Some i))
             (Materials.MaterialDatabase.materials db)).
Proof.
  intros Hwf Htag. rewrite search_thresholds. cbv zeta. rewrite Htag.
  rewrite (comprehension_filter _ (Materials.resists (Some i))).
  - rewrite filter_fuse. f_equal. apply filter_ext. intros m.
    symmetry. apply meets_resists.
  - apply Forall_forall. intros m Hm. apply filter_In in Hm. destruct Hm as [Hm _].
    unfold Materials.well_formed in Hwf. rewrite Forall_forall in Hwf.
    specialize (Hwf m Hm). cbn [Materials.resists].
    destruct (Materials.level (Materials.corrosion_resistance m)); [ reflexivity | ].
    contradiction.
Qed.

(** X14.  With no corrosion criterion, [search] never raises: it returns,
    in database order, exactly the materials whose yield strength, cost
    per kg, service temperature and category pass every threshold that is
    given, the successive filters acting as one. *)
Theorem search_without_corrosion (db : Materials.MaterialDatabase.t)
    (s c t : option R) (cat : option Materials.MaterialCategory) :
  Materials.MaterialDatabase.search db s c t cat None =
  Ok (filter
        (fun m =>
           Materials.at_least s (Materials.yield_strength m) &&
           Materials.at_most c (Materials.cost_per_kg m) &&
           Materials.at_least t (Materials.max_service_temp m) &&
           Materials.in_category cat m)
        (Materials.MaterialDatabase.materials db)).
Proof.
  rewrite search_thresholds. cbv zeta. f_equal. apply filter_ext. intros m.
  unfold Materials.meets. cbn [Materials.resists]. apply andb_true_r.
Qed.

(** X15.  A corrosion level that is not one of "poor", "moderate", "good"
    and "excellent" makes [search] raise [ValueError] at line 273, for any
    database and any other criteria, also when no material is left to
    filter. *)
Theorem search_unknown_level_raises (db : Materials.MaterialDatabase.t)
    (s c t : option R) (cat : option Materials.MaterialCategory) (tag : string) :
  ~ In tag Materials.resistance_levels ->
  Materials.MaterialDatabase.search db s c t cat (Some tag) =
  Raise (ValueError 273).
Proof.
  intros Htag. rewrite search_thresholds. cbv zeta.
  destruct (Materials.level tag) as [i | ] eqn:Hl; [ | reflexivity ].
  exfalso. apply Htag. apply level_In. congruence.
Qed.

Lemma search_unknown_level_raises_witness :
  ~ In "superb" Materials.resistance_levels /\
  Materials.MaterialDatabase.search
    {| Materials.MaterialDatabase.materials := [] |}
    None None None None (Some "superb") =
  Raise (ValueError 273).
Proof.
  assert (Htag : ~ In "superb" Materials.resistance_levels).
  { cbn. intros [H | [H | [H | [H | []]]]]; discriminate H. }
  split; [ exact Htag | ].
  exact (search_unknown_level_raises _ None None None None "superb" Htag).
Defined.

(** X16.  On the database that [MaterialDatabase()] builds, [search] with
    a corrosion criterion returns a list exactly when the level asked for
    is one of the four known levels, whatever the other criteria; and then
    the list is, in database order, the materials that pass every given
    threshold and whose corrosion level is at least the one asked for. *)
Theorem search_shipped_database
    (s c t : option R) (cat : option Materials.MaterialCategory) (tag : string) :
  let call :=
    Materials.MaterialDatabase.search Materials.MaterialDatabase.init
      s c t cat (Some tag) in
  ((exists rs, call = Ok rs) <-> In tag Materials.resistance_levels) /\
  (forall rs, call = Ok rs ->
     rs = filter (Materials.meets s c t cat (Materials.level tag))
                 (Materials.MaterialDatabase.materials Materials.MaterialDatabase.init)).
Proof.
  intros call. subst call.
  destruct (Materials.level tag) as [i | ] eqn:Hl.
  - rewrite (search_known_level _ s c t cat tag i init_well_formed Hl). split.
    + split; [ intros _; apply level_In; congruence | intros _; eexists; reflexivity ].
    + intros rs H. injection H as <-. reflexivity.
  - rewrite search_thresholds. cbv zeta. rewrite Hl. split.
    + split; [ intros [rs H]; discriminate H | ].
      intros Hin. apply level_In in Hin. congruence.
    + intros rs H. discriminate H.
Qed.

Lemma search_In (db : Materials.MaterialDatabase.t)
    (s c t : option R) (cat : option Materials.MaterialCategory)
    (corr : option string) (rs : list Materials.MaterialProperties) :
  Materials.MaterialDatabase.search db s c t cat corr = Ok rs ->
  let lv := match corr with Some tag => Materials.level tag | None => None end in
  (corr <> None -> lv <> None) /\
  forall m,
    In m rs <->
    In m (Materials.MaterialDatabase.materials db) /\
    Materials.meets s c t cat lv m = true.
Proof.
  intros H lv. subst lv. rewrite search_thresholds in H. cbv zeta in H.
  destruct corr as [tag | ].
  - destruct (Materials.level tag) as [i | ]; [ | discriminate H ].
    split; [ discriminate | ]. intros m.
    rewrite (comprehension_In _ _ _ H m), filter_In.
    rewrite (meets_resists s c t cat (Some i) m).
    rewrite (andb_true_iff (Materials.meets s c t cat None m)).
    cbn [Materials.resists].
    destruct (Materials.level (Materials.corrosion_resistance m)) as [j | ].
    + split.
      * intros [[Hin Hm] Hj]. injection Hj as Hj. tauto.
      * intros [Hin [Hm Hj]]. rewrite Hj. tauto.
    + split.
      * intros [_ Hj]. discriminate Hj.
      * intros [_ [_ Hj]]. discriminate Hj.
  - injection H as <-. split; [ congruence | ]. intros m. apply filter_In.
Qed.

(** X17.  For any database, whenever [search] returns, the materials in
    its result are exactly the materials of the database that pass every
    given threshold and, when a corrosion level is asked for, carry a
    known level that is at least the (known) level asked for. *)
Theorem search_sound_and_complete (db : Materials.MaterialDatabase.t)
    (s c t : option R) (cat : option Materials.MaterialCategory)
    (corr : option string) (rs : list Materials.MaterialProperties) :
  Materials.MaterialDatabase.search db s c t cat corr = Ok rs ->
  let lv := match corr with Some tag => Materials.level tag | None => None end in
  (corr <> None -> lv <> None) /\
  forall m,
    In m rs <->
    In m (Materials.MaterialDatabase.materials db) /\
    Materials.meets s c t cat lv m = true.
Proof. apply search_In. Qed.

Lemma search_sound_and_complete_witness :
  exists rs,
    Materials.MaterialDatabase.search Materials.MaterialDatabase.init
      None None None (Some Materials.POLYMER) (Some "good") = Ok rs /\
    forall m,
      In m rs <->
      In m (Materials.MaterialDatabase.materials Materials.MaterialDatabase.init) /\
      Materials.meets None None None (Some Materials.POLYMER)
        (Materials.level "good") m = true.
Proof.
  eexists. split.
  - apply (search_known_level _ None None None (Some Materials.POLYMER) "good" 2
             init_well_formed eq_refl).
  - exact (proj2 (search_sound_and_complete _ None None None (Some Materials.POLYMER)
                    (Some "good") _
                    (search_known_level _ None None None (Some Materials.POLYMER)
                       "good" 2 init_well_formed eq_refl))).
Defined.

(** ** Looking a material up by name *)

Section GetByName.

Variable lower : string -> string.

Lemma get_by_name_loop_first (l : list Materials.MaterialProperties) (q : string)
    (m : Materials.MaterialProperties) :
  Materials.MaterialDatabase.get_by_name_loop lower l q = Some m ->
  exists l1 l2,
    l = (l1 ++ m :: l2)%list /\
    lower (Materials.name m) = lower q /\
    forall x, In x l1 -> lower (Materials.name x) <> lower q.
Proof.
  induction l as [| y l IH]; cbn; intros H; [ discriminate H | ].
  destruct (String.eqb_spec (lower (Materials.name y)) (lower q)) as [Heq | Hne].
  - injection H as <-. exists [], l. repeat split; [ assumption | ]. intros x [].
  - destruct (IH H) as (l1 & l2 & -> & Hm & Hl1).
    exists (y :: l1), l2. repeat split; [ assumption | ].
    intros x [<- | Hx]; [ assumption | apply Hl1; assumption ].
Qed.

Lemma get_by_name_loop_none (l : list Materials.MaterialProperties) (q : string) :
  Materials.MaterialDatabase.get_by_name_loop lower l q = None <->
  forall x, In x l -> lower (Materials.name x) <> lower q.
Proof.
  induction l as [| y l IH]; cbn.
  - split; [ intros _ x [] | reflexivity ].
  - destruct (String.eqb_spec (lower (Materials.name y)) (lower q)) as [Heq | Hne].
    + split; [ discriminate | ]. intros H. exfalso. apply (H y); auto.
    + rewrite IH. split.
      * intros H x [<- | Hx]; [ assumption | apply H; assumption ].
      * intros H x Hx. apply H. right. assumption.
Qed.

Lemma get_by_name_loop_lower (l : list Materials.MaterialProperties) (q q' : string) :
  lower q' = lower q ->
  Materials.MaterialDatabase.get_by_name_loop lower l q' =
  Materials.MaterialDatabase.get_by_name_loop lower l q.
Proof.
  intros Hq. induction l as [| y l IH]; cbn; [ reflexivity | ].
  rewrite Hq, IH. reflexivity.
Qed.

End GetByName.

(** X18.  Whatever [str.lower] does, [get_by_name] returns the first
    material of the database whose lower-cased name equals the lower-cased
    query; it returns [None] exactly when no material has such a name; and
    two queries with the same lower-cased form get the same answer. *)
Theorem get_by_name_first_match (lower : string -> string)
    (db : Materials.MaterialDatabase.t) (q : string) :
  (forall m,
     Materials.MaterialDatabase.get_by_name lower db q = Some m ->
     exists l1 l2,
       Materials.MaterialDatabase.materials db = (l1 ++ m :: l2)%list /\
       lower (Materials.name m) = lower q /\
       forall x, In x l1 -> lower (Materials.name x) <> lower q) /\
  (Materials.MaterialDatabase.get_by_name lower db q = None <->
   forall x, In x (Materials.MaterialDatabase.materials db) ->
             lower (Materials.name x) <> lower q) /\
  (forall q', lower q' = lower q ->
     Materials.MaterialDatabase.get_by_name lower db q' =
     Materials.MaterialDatabase.get_by_name lower db q).
Proof.
  unfold Materials.MaterialDatabase.get_by_name. split; [ | split ].
  - intros m. apply get_by_name_loop_first.
  - apply get_by_name_loop_none.
  - intros q'. apply get_by_name_loop_lower.
Qed.

(** ** Recommending a material *)

Section KeyScan.

Context {A : Type}.
Variable key : A -> R.

(** The element [min] keeps sits at one place of the list: everything
    before it has a strictly greater key, everything after it a key that
    is not smaller. *)
Lemma min_scan_first (best : A) (l : list A) :
  exists l1 l2,
    best :: l = (l1 ++ PyBuiltins.min_scan key best l :: l2)%list /\
    (forall x, In x l1 -> key (PyBuiltins.min_scan key best l) < key x) /\
    (forall x, In x l2 -> key (PyBuiltins.min_scan key best l) <= key x).
Proof.
  revert best. induction l as [| y l IH]; intros best.
  - exists [], []. cbn. repeat split; intros x [].
  - cbn [PyBuiltins.min_scan]. unfold lt. destruct (Rlt_dec (key y) (key best)) as [Hlt | Hge].
    + destruct (IH y) as (l1 & l2 & Heq & H1 & H2).
      set (m := PyBuiltins.min_scan key y l) in *.
      assert (Hmy : key m <= key y).
      { destruct l1 as [| z l1].
        - injection Heq as Hy _. rewrite Hy. lra.
        - injection Heq as Hy _. subst z. apply Rlt_le, H1. left. reflexivity. }
      exists (best :: l1), l2. cbn. rewrite Heq. repeat split; [ | assumption ].
      intros x [<- | Hx]; [ lra | apply H1; assumption ].
    + destruct (IH best) as (l1 & l2 & Heq & H1 & H2).
      set (m := PyBuiltins.min_scan key best l) in *. clearbody m.
      destruct l1 as [| z l1].
      * injection Heq as Hb Hl. subst best l2. exists [], (y :: l). cbn.
        repeat split; [ intros x [] | ].
        intros x [<- | Hx]; [ lra | apply H2; assumption ].
      * injection Heq as Hz Hl. subst z.
        exists (best :: y :: l1), l2. cbn. rewrite Hl. repeat split; [ | assumption ].
        assert (Hmb : key m < key best) by (apply H1; left; reflexivity).
        intros x [<- | [<- | Hx]]; [ assumption | lra | ].
        apply H1. right. assumption.
Qed.

Lemma max_scan_first (best : A) (l : list A) :
  exists l1 l2,
    best :: l = (l1 ++ PyBuiltins.max_scan key best l :: l2)%list /\
    (forall x, In x l1 -> key x < key (PyBuiltins.max_scan key best l)) /\
    (forall x, In x l2 -> key x <= key (PyBuiltins.max_scan key best l)).
Proof.
  revert best. induction l as [| y l IH]; intros best.
  - exists [], []. cbn. repeat split; intros x [].
  - cbn [PyBuiltins.max_scan]. unfold gt. destruct (Rgt_dec (key y) (key best)) as [Hgt | Hle].
    + destruct (IH y) as (l1 & l2 & Heq & H1 & H2).
      set (m := PyBuiltins.max_scan key y l) in *.
      assert (Hmy : key y <= key m).
      { destruct l1 as [| z l1].
        - injection Heq as Hy _. rewrite Hy. lra.
        - injection Heq as Hy _. subst z. apply Rlt_le, H1. left. reflexivity. }
      exists (best :: l1), l2. cbn. rewrite Heq. repeat split; [ | assumption ].
      intros x [<- | Hx]; [ lra | apply H1; assumption ].
    + destruct (IH best) as (l1 & l2 & Heq & H1 & H2).
      set (m := PyBuiltins.max_scan key best l) in *. clearbody m.
      destruct l1 as [| z l1].
      * injection Heq as Hb Hl. subst best l2. exists [], (y :: l). cbn.
        repeat split; [ intros x [] | ].
        intros x [<- | Hx]; [ lra | apply H2; assumption ].
      * injection Heq as Hz Hl. subst z.
        exists (best :: y :: l1), l2. cbn. rewrite Hl. repeat split; [ | assumption ].
        assert (Hmb : key best < key m) by (apply H1; left; reflexivity).
        intros x [<- | [<- | Hx]]; [ assumption | lra | ].
        apply H1. right. assumption.
Qed.

End KeyScan.

Lemma min_key_In {A : Type} (key : A -> R) (lineno : nat) (x : A) (l : list A) :
  exists m, PyBuiltins.min_key lineno key (x :: l) = Ok m /\ In m (x :: l).
Proof.
  eexists. split; [ reflexivity | ].
  destruct (min_scan_first key x l) as (l1 & l2 & -> & _).
  apply in_or_app. right. left. reflexivity.
Qed.

Lemma max_key_In {A : Type} (key : A -> R) (lineno : nat) (x : A) (l : list A) :
  exists m, PyBuiltins.max_key lineno key (x :: l) = Ok m /\ In m (x :: l).
Proof.
  eexists. split; [ reflexivity | ].
  destruct (max_scan_first key x l) as (l1 & l2 & -> & _).
  apply in_or_app. right. left. reflexivity.
Qed.

(** X19.  [recommend] adds no failure of its own to [search] (called
    without a category): it raises exactly the exception [search] raises,
    returns [None] when [search] finds nothing, and otherwise returns one
    of the materials [search] found, whatever [optimize_for] is. *)
Theorem recommend_follows_search (sel : Materials.MaterialSelector.t)
    (s c t : option R) (corr : option string) (optimize_for : string) :
  let found :=
    Materials.MaterialDatabase.search (Materials.MaterialSelector.db sel)
      s c t None corr in
  let call := Materials.MaterialSelector.recommend sel s c t corr optimize_for in
  (forall e, found = Raise e -> call = Raise e) /\
  (found = Ok [] -> call = Ok None) /\
  (forall candidates, found = Ok candidates -> candidates <> [] ->
     exists m, call = Ok (Some m) /\ In m candidates).
Proof.
  intros found call. subst found call. unfold Materials.MaterialSelector.recommend.
  split; [ | split ].
  - intros e ->. reflexivity.
  - intros ->. reflexivity.
  - intros candidates -> Hne. cbn [bind].
    destruct candidates as [| first rest]; [ contradiction | ].
    destruct (String.eqb optimize_for "cost").
    { destruct (min_key_In Materials.cost_per_kg 326 first rest) as (m & -> & Hin).
      exists m. split; [ reflexivity | assumption ]. }
    destruct (String.eqb optimize_for "weight").
    { destruct (min_key_In Materials.density 328 first rest) as (m & -> & Hin).
      exists m. split; [ reflexivity | assumption ]. }
    destruct (String.eqb optimize_for "strength").
    { destruct (max_key_In Materials.yield_strength 330 first rest) as (m & -> & Hin).
      exists m. split; [ reflexivity | assumption ]. }
    exists first. split; [ reflexivity | left; reflexivity ].
Qed.

(** X20.  What [recommend] optimises: among the candidates [search]
    found, "cost" returns the first one of least cost per kg, "weight" the
    first one of least density and "strength" the first one of greatest
    yield strength (every candidate before the one returned is strictly
    worse, every candidate after it is no better); any other value of
    [optimize_for] returns the first candidate. *)
Theorem recommend_optimal (sel : Materials.MaterialSelector.t)
    (s c t : option R) (corr : option string) (optimize_for : string)
    (candidates : list Materials.MaterialProperties) (m : Materials.MaterialProperties) :
  Materials.MaterialDatabase.search (Materials.MaterialSelector.db sel)
    s c t None corr = Ok candidates ->
  Materials.MaterialSelector.recommend sel s c t corr optimize_for = Ok (Some m) ->
  exists before after,
    candidates = (before ++ m :: after)%list /\
    (optimize_for = "cost" ->
     (forall x, In x before -> Materials.cost_per_kg m < Materials.cost_per_kg x) /\
     (forall x, In x after -> Materials.cost_per_kg m <= Materials.cost_per_kg x)) /\
    (optimize_for = "weight" ->
     (forall x, In x before -> Materials.density m < Materials.density x) /\
     (forall x, In x after -> Materials.density m <= Materials.density x)) /\
    (optimize_for = "strength" ->
     (forall x, In x before -> Materials.yield_strength x < Materials.yield_strength m) /\
     (forall x, In x after -> Materials.yield_strength x <= Materials.yield_strength m)) /\
    (optimize_for <> "cost" -> optimize_for <> "weight" -> optimize_for <> "strength" ->
     before = []).
Proof.
  intros Hfound Hcall. unfold Materials.MaterialSelector.recommend in Hcall.
  rewrite Hfound in Hcall. cbn [bind] in Hcall.
  destruct candidates as [| first rest]; [ discriminate Hcall | ].
  destruct (String.eqb_spec optimize_for "cost") as [Hc | Hc].
  { cbn in Hcall. injection Hcall as <-.
    destruct (min_scan_first Materials.cost_per_kg first rest) as (l1 & l2 & Heq & H1 & H2).
    exists l1, l2. split; [ exact Heq | ]. subst optimize_for.
    repeat split; try discriminate; try assumption. congruence. }
  destruct (String.eqb_spec optimize_for "weight") as [Hw | Hw].
  { cbn in Hcall. injection Hcall as <-.
    destruct (min_scan_first Materials.density first rest) as (l1 & l2 & Heq & H1 & H2).
    exists l1, l2. split; [ exact Heq | ]. subst optimize_for.
    repeat split; try discriminate; try assumption. congruence. }
  destruct (String.eqb_spec optimize_for "strength") as [Hs | Hs].
  { cbn in Hcall. injection Hcall as <-.
    destruct (max_scan_first Materials.yield_strength first rest)
      as (l1 & l2 & Heq & H1 & H2).
    exists l1, l2. split; [ exact Heq | ]. subst optimize_for.
    repeat split; try discriminate; try assumption. congruence. }
  cbn in Hcall. injection Hcall as <-.
  exists [], rest. split; [ reflexivity | ].
  repeat split; try contradiction. 
Qed.

Lemma max_scan_take {A : Type} (key : A -> R) (best x : A) (l : list A) :
  key x > key best ->
  PyBuiltins.max_scan key best (x :: l) = PyBuiltins.max_scan key x l.
Proof.
  intros H. cbn. unfold gt. destruct (Rgt_dec _ _); [ reflexivity | contradiction ].
Qed.

Lemma max_scan_keep {A : Type} (key : A -> R) (best x : A) (l : list A) :
  ~ key x > key best ->
  PyBuiltins.max_scan key best (x :: l) = PyBuiltins.max_scan key best l.
Proof.
  intros H. cbn. unfold gt. destruct (Rgt_dec _ _); [ contradiction | reflexivity ].
Qed.

Lemma search_shipped_all :
  Materials.MaterialDatabase.search Materials.MaterialDatabase.init
    None None None None None =
  Ok (Materials.MaterialDatabase.materials Materials.MaterialDatabase.init).
Proof. reflexivity. Qed.

Lemma recommend_shipped_strength :
  exists m,
    Materials.MaterialSelector.recommend Materials.MaterialSelector.init
      None None None None "strength" = Ok (Some m) /\
    Materials.name m = "Titanium Ti-6Al-4V".
Proof.
  unfold Materials.MaterialSelector.recommend.
  cbn [Materials.MaterialSelector.db Materials.MaterialSelector.init].
  rewrite search_shipped_all.
  cbn [bind ret Materials.MaterialDatabase.materials Materials.MaterialDatabase.init
       Materials.MaterialDatabase.load_materials app String.eqb Ascii.eqb Bool.eqb
       PyBuiltins.max_key].
  repeat first
    [ rewrite max_scan_take by (cbn [Materials.yield_strength]; lra)
    | rewrite max_scan_keep by (cbn [Materials.yield_strength]; lra) ].
  eexists. split; reflexivity.
Qed.

Lemma recommend_optimal_witness :
  exists candidates m,
    Materials.MaterialDatabase.search
      (Materials.MaterialSelector.db Materials.MaterialSelector.init)
      None None None None None = Ok candidates /\
    Materials.MaterialSelector.recommend Materials.MaterialSelector.init
      None None None None "strength" = Ok (Some m) /\
    Materials.name m = "Titanium Ti-6Al-4V" /\
    exists before after,
      candidates = (before ++ m :: after)%list /\
      (forall x, In x before -> Materials.yield_strength x < Materials.yield_strength m) /\
      (forall x, In x after -> Materials.yield_strength x <= Materials.yield_strength m).
Proof.
  destruct recommend_shipped_strength as (m & Hm & Hname).
  exists (Materials.MaterialDatabase.materials Materials.MaterialDatabase.init), m.
  split; [ exact search_shipped_all | ]. split; [ exact Hm | ]. split; [ exact Hname | ].
  destruct (recommend_optimal Materials.MaterialSelector.init None None None None
              "strength" _ m search_shipped_all Hm)
    as (before & after & Heq & _ & _ & Hs & _).
  exists before, after. split; [ exact Heq | ]. exact (Hs eq_refl).
Defined.

(** X22.  A material that [recommend] returns belongs to the selector's
    database and meets every criterion the caller gave: yield strength at
    least [min_strength], cost per kg at most [max_cost], service
    temperature at least [min_temp] and corrosion level at least the one
    asked for, whatever [optimize_for] is. *)
Theorem recommend_meets_criteria (sel : Materials.MaterialSelector.t)
    (s c t : option R) (corr : option string) (optimize_for : string)
    (m : Materials.MaterialProperties) :
  Materials.MaterialSelector.recommend sel s c t corr optimize_for = Ok (Some m) ->
  let lv := match corr with Some tag => Materials.level tag | None => None end in
  In m (Materials.MaterialDatabase.materials (Materials.MaterialSelector.db sel)) /\
  Materials.at_least s (Materials.yield_strength m) = true /\
  Materials.at_most c (Materials.cost_per_kg m) = true /\
  Materials.at_least t (Materials.max_service_temp m) = true /\
  Materials.resists lv m = true.
Proof.
  intros Hcall lv.
  assert (Hin : exists candidates,
            Materials.MaterialDatabase.search (Materials.MaterialSelector.db sel)
              s c t None corr = Ok candidates /\ In m candidates).
  { unfold Materials.MaterialSelector.recommend in Hcall.
    destruct (Materials.MaterialDatabase.search _ s c t None corr)
      as [candidates | e]; cbn [bind] in Hcall; [ | discriminate Hcall ].
    exists candidates. split; [ reflexivity | ].
    destruct candidates as [| first rest]; [ discriminate Hcall | ].
    destruct (String.eqb optimize_for "cost").
    { destruct (min_key_In Materials.cost_per_kg 326 first rest) as (m' & Hm' & Hin).
      rewrite Hm' in Hcall. injection Hcall as <-. exact Hin. }
    destruct (String.eqb optimize_for "weight").
    { destruct (min_key_In Materials.density 328 first rest) as (m' & Hm' & Hin).
      rewrite Hm' in Hcall. injection Hcall as <-. exact Hin. }
    destruct (String.eqb optimize_for "strength").
    { destruct (max_key_In Materials.yield_strength 330 first rest) as (m' & Hm' & Hin).
      rewrite Hm' in Hcall. injection Hcall as <-. exact Hin. }
    injection Hcall as <-. left. reflexivity. }
  destruct Hin as (candidates & Hfound & Hin).
  destruct (search_In _ _ _ _ _ _ _ Hfound) as [_ Hiff].
  apply Hiff in Hin. destruct Hin as [Hdb Hmeets]. fold lv in Hmeets.
  unfold Materials.meets in Hmeets. rewrite !andb_true_iff in Hmeets.
  tauto.
Qed.

Lemma ge_decide (x y : R) : ge x y = true /\ x >= y \/ ge x y = false /\ x < y.
Proof. unfold ge. destruct (Rge_dec x y); [ left | right ]; split; (reflexivity || lra). Qed.

Lemma ge_holds (x y : R) : x >= y -> ge x y = true.
Proof. intros H. destruct (ge_decide x y) as [[E _] | [_ N]]; [ exact E | lra ]. Qed.

Lemma ge_fails (x y : R) : x < y -> ge x y = false.
Proof. intros H. destruct (ge_decide x y) as [[_ N] | [E _]]; [ lra | exact E ]. Qed.

Lemma le_holds (x y : R) : x <= y -> PyBuiltins.le x y = true.
Proof. intros H. unfold PyBuiltins.le. destruct (Rle_dec x y); [ reflexivity | contradiction ]. Qed.

Lemma le_fails (x y : R) : x > y -> PyBuiltins.le x y = false.
Proof. intros H. unfold PyBuiltins.le. destruct (Rle_dec x y); [ lra | reflexivity ]. Qed.

Lemma min_scan_take {A : Type} (key : A -> R) (best x : A) (l : list A) :
  key x < key best ->
  PyBuiltins.min_scan key best (x :: l) = PyBuiltins.min_scan key x l.
Proof.
  intros H. cbn. unfold lt. destruct (Rlt_dec _ _); [ reflexivity | contradiction ].
Qed.

Lemma filter_keep {A : Type} (p : A -> bool) (x : A) (l : list A) :
  p x = true -> filter p (x :: l) = x :: filter p l.
Proof. intros H. cbn. rewrite H. reflexivity. Qed.

Lemma filter_drop {A : Type} (p : A -> bool) (x : A) (l : list A) :
  p x = false -> filter p (x :: l) = filter p l.
Proof. intros H. cbn. rewrite H. reflexivity. Qed.

(** Decides whether a material of the shipped database meets given
    criteria. *)
Ltac decide_meets :=
  unfold Materials.meets, Materials.at_least, Materials.at_most, Materials.in_category;
  cbn [Materials.yield_strength Materials.cost_per_kg Materials.max_service_temp];
  repeat first
    [ rewrite ge_holds by lra | rewrite ge_fails by lra
    | rewrite le_holds by lra | rewrite le_fails by lra ];
  reflexivity.

(** On the shipped database, a strength of at least 200 MPa at no more
    than 5 USD/kg, for service at 100 degrees and good corrosion
    resistance, leaves Stainless Steel 304 and Aluminum 6061-T6; the
    cheaper one is recommended. *)
Lemma recommend_shipped_criteria :
  exists m,
    Materials.MaterialSelector.recommend Materials.MaterialSelector.init
      (Some 200) (Some 5) (Some 100) (Some "good") "cost" = Ok (Some m) /\
    Materials.name m = "Aluminum 6061-T6".
Proof.
  unfold Materials.MaterialSelector.recommend.
  cbn [Materials.MaterialSelector.db Materials.MaterialSelector.init].
  rewrite (search_known_level _ (Some 200) (Some 5) (Some 100) None "good" 2
             init_well_formed eq_refl).
  cbn [Materials.MaterialDatabase.materials Materials.MaterialDatabase.init
       Materials.MaterialDatabase.load_materials app].
  repeat first
    [ rewrite filter_keep by decide_meets | rewrite filter_drop by decide_meets ].
  cbn [filter bind ret String.eqb Ascii.eqb Bool.eqb PyBuiltins.min_key].
  rewrite min_scan_take by (cbn [Materials.cost_per_kg]; lra).
  eexists. split; reflexivity.
Qed.

Lemma recommend_meets_criteria_witness :
  exists m,
    Materials.MaterialSelector.recommend Materials.MaterialSelector.init
      (Some 200) (Some 5) (Some 100) (Some "good") "cost" = Ok (Some m) /\
    Materials.name m = "Aluminum 6061-T6" /\
    In m (Materials.MaterialDatabase.materials
            (Materials.MaterialSelector.db Materials.MaterialSelector.init)) /\
    Materials.at_least (Some 200) (Materials.yield_strength m) = true /\
    Materials.at_most (Some 5) (Materials.cost_per_kg m) = true /\
    Materials.at_least (Some 100) (Materials.max_service_temp m) = true /\
    Materials.resists (Materials.level "good") m = true.
Proof.
  destruct recommend_shipped_criteria as (m & Hm & Hname).
  exists m. split; [ exact Hm | ]. split; [ exact Hname | ].
  exact (recommend_meets_criteria Materials.MaterialSelector.init
           (Some 200) (Some 5) (Some 100) (Some "good") "cost" m Hm).
Defined.

(** ** Comparing materials *)

Lemma lookup_set_same {V : Type} (d : dict V) (k : string) (v : V) :
  lookup (set d k v) k = Some v.
Proof.
  induction d as [| [k' v'] d IH]; cbn.
  - rewrite String.eqb_refl. reflexivity.
  - destruct (String.eqb k' k) eqn:Hk; cbn; rewrite Hk; [ reflexivity | exact IH ].
Qed.

Lemma lookup_set_other {V : Type} (d : dict V) (k k' : string) (v : V) :
  k <> k' -> lookup (set d k v) k' = lookup d k'.
Proof.
  intros Hne. induction d as [| [k0 v0] d IH]; cbn.
  - destruct (String.eqb_spec k k'); [ contradiction | reflexivity ].
  - destruct (String.eqb_spec k0 k) as [-> | Hk0]; cbn.
    + destruct (String.eqb_spec k k'); [ contradiction | reflexivity ].
    + destruct (String.eqb k0 k'); [ reflexivity | exact IH ].
Qed.

Section Compare.

Variable lower : string -> string.
Variable sel : Materials.MaterialSelector.t.

Lemma compare_loop_lookup (names : list string) (acc : dict Materials.MaterialProperties)
    (n : string) :
  lookup (Materials.MaterialSelector.compare_loop lower sel names acc) n =
  match
    (if in_dec string_dec n names
     then Materials.MaterialDatabase.get_by_name lower
            (Materials.MaterialSelector.db sel) n
     else None)
  with
  | Some m => Some m
  | None => lookup acc n
  end.
Proof.
  revert acc. induction names as [| name rest IH]; intros acc; [ reflexivity | ].
  cbn [Materials.MaterialSelector.compare_loop].
  destruct (Materials.MaterialDatabase.get_by_name lower
              (Materials.MaterialSelector.db sel) name) as [m | ] eqn:Hname;
    rewrite IH; clear IH.
  - destruct (string_dec name n) as [<- | Hne].
    + destruct (in_dec string_dec name (name :: rest)) as [_ | Hout];
        [ | exfalso; apply Hout; left; reflexivity ].
      rewrite Hname.
      destruct (in_dec string_dec name rest); [ reflexivity | ].
      apply lookup_set_same.
    + rewrite (lookup_set_other acc name n m Hne).
      destruct (in_dec string_dec n rest) as [Hin | Hout];
        destruct (in_dec string_dec n (name :: rest)) as [Hin' | Hout'];
        try reflexivity.
      * exfalso. apply Hout'. right. assumption.
      * exfalso. destruct Hin' as [Heq | Hin']; [ congruence | contradiction ].
  - destruct (string_dec name n) as [<- | Hne].
    + destruct (in_dec string_dec name (name :: rest)) as [_ | Hout];
        [ | exfalso; apply Hout; left; reflexivity ].
      rewrite Hname.
      destruct (in_dec string_dec name rest); reflexivity.
    + destruct (in_dec string_dec n rest) as [Hin | Hout];
        destruct (in_dec string_dec n (name :: rest)) as [Hin' | Hout'];
        try reflexivity.
      * exfalso. apply Hout'. right. assumption.
      * exfalso. destruct Hin' as [Heq | Hin']; [ congruence | contradiction ].
Qed.

Lemma set_keys {V : Type} (d : dict V) (k : string) (v : V) :
  NoDup (map fst d) -> NoDup (map fst (set d k v)).
Proof.
  induction d as [| [k' v'] d IH]; cbn; intros Hd.
  - constructor; [ intros [] | constructor ].
  - destruct (String.eqb_spec k' k) as [-> | Hne]; cbn; [ exact Hd | ].
    inversion Hd as [| ? ? Hk' Hd']; subst. constructor; [ | apply IH; exact Hd' ].
    intros Hin. apply Hk'. clear - Hin Hne.
    induction d as [| [k0 v0] d IHd]; cbn in *.
    + destruct Hin as [Heq | []]. congruence.
    + destruct (String.eqb_spec k0 k) as [-> | Hk0]; cbn in *.
      * exact Hin.
      * destruct Hin as [Heq | Hin]; [ left; exact Heq | right; apply IHd; exact Hin ].
Qed.

Lemma compare_loop_keys (names : list string) (acc : dict Materials.MaterialProperties) :
  NoDup (map fst acc) ->
  NoDup (map fst (Materials.MaterialSelector.compare_loop lower sel names acc)).
Proof.
  revert acc. induction names as [| name rest IH]; intros acc Hacc; [ exact Hacc | ].
  cbn [Materials.MaterialSelector.compare_loop].
  destruct (Materials.MaterialDatabase.get_by_name lower
              (Materials.MaterialSelector.db sel) name).
  - apply IH. apply set_keys. exact Hacc.
  - apply IH. exact Hacc.
Qed.

End Compare.

(** X21.  Whatever [str.lower] does, the dict [compare] returns maps each
    requested name, as the caller spelled it, to what [get_by_name] finds
    for it: a requested name that matches no material is left out without
    an error, a name that was not requested is absent, and a name requested
    twice appears once. *)
Theorem compare_lookup (lower : string -> string)
    (sel : Materials.MaterialSelector.t) (names : list string) (n : string) :
  (In n names ->
   lookup (Materials.MaterialSelector.compare lower sel names) n =
   Materials.MaterialDatabase.get_by_name lower (Materials.MaterialSelector.db sel) n) /\
  (~ In n names ->
   lookup (Materials.MaterialSelector.compare lower sel names) n = None) /\
  NoDup (map fst (Materials.MaterialSelector.compare lower sel names)).
Proof.
  unfold Materials.MaterialSelector.compare.
  split; [ | split ].
  - intros Hin. rewrite compare_loop_lookup.
    destruct (in_dec string_dec n names); [ | contradiction ].
    destruct (Materials.MaterialDatabase.get_by_name _ _ _); reflexivity.
  - intros Hout. rewrite compare_loop_lookup.
    destruct (in_dec string_dec n names); [ contradiction | reflexivity ].
  - apply compare_loop_keys. constructor.
Qed.

(** On ASCII names the lookup ignores case, and [compare] keeps the
    caller's spelling as the key. *)
Example get_by_name_ignores_case :
  exists m,
    Materials.MaterialDatabase.get_by_name PyBuiltins.lower_ascii
      Materials.MaterialDatabase.init "STEEL a36" = Some m /\
    Materials.str m = "Steel A36 (ASTM A36)" /\
    Materials.MaterialDatabase.get_by_name PyBuiltins.lower_ascii
      Materials.MaterialDatabase.init "Steel A37" = None /\
    map fst
      (Materials.MaterialSelector.compare PyBuiltins.lower_ascii
         Materials.MaterialSelector.init ["nylon 6/6"; "unobtainium"; "NYLON 6/6"]) =
    ["nylon 6/6"; "NYLON 6/6"].
Proof.
  eexists. split; [ reflexivity | ]. split; [ reflexivity | ].
  split; reflexivity.
Qed.
